(** * k6-operator: the reconciliation loop, the worker poller, the status
    updater and the cloud coordination, embedded from

      - controllers/k6_controller.go  (Reconcile, UpdateStatus, ShouldAbort,
        createClient)
      - the poller file of package controllers (isJobRunning, StoppedJobs,
        KillJobs)

    Go code is embedded as state-passing functions over the reconciler
    [K6Reconciler]: the cluster behind [client.Client] and the HTTP endpoints
    are an interface ([Cluster]), the functions of the repository that the
    sources call but do not define are a second interface ([Collaborators]). *)

From Stdlib Require Import ZArith.
From stdpp Require Import gmap strings list.

Local Open Scope string_scope.
Local Open Scope Z_scope.

(** ** Data model *)

(** Go's [error]: what the code asks of an error is whether
    [k8sErrors.IsNotFound] holds of it. *)
Inductive error : Type :=
| ErrNotFound (what : string)
| ErrOther (msg : string).

Definition IsNotFound (e : error) : bool :=
  match e with ErrNotFound _ => true | ErrOther _ => false end.

(** [metav1.ConditionStatus]. *)
Inductive ConditionStatus : Type :=
| ConditionTrue
| ConditionFalse
| ConditionUnknown.

Global Instance ConditionStatus_eq_dec : EqDecision ConditionStatus.
Proof. solve_decision. Defined.

(** Condition types of [v1alpha1]. *)
Definition CloudTestRun : string := "CloudTestRun".
Definition CloudTestRunCreated : string := "CloudTestRunCreated".
Definition CloudTestRunFinalized : string := "CloudTestRunFinalized".
Definition CloudTestRunAborted : string := "CloudTestRunAborted".
Definition CloudPLZTestRun : string := "CloudPLZTestRun".
Definition TestRunRunning : string := "TestRunRunning".

Record EnvVar : Type := { envName : string; envValue : string }.

Record K6Spec : Type := {
  Parallelism : Z;          (* int32 *)
  Cleanup : string;
  Token : string;
  RunnerEnv : list EnvVar   (* Spec.Runner.Env *)
}.

Record K6Status : Type := {
  Stage : string;
  TestRunID : string;
  Conditions : gmap string ConditionStatus
}.

Record K6 : Type := {
  Name : string;
  Namespace : string;
  Spec : K6Spec;
  Status : K6Status
}.

Definition setStage (s : string) (k6 : K6) : K6 :=
  {| Name := Name k6; Namespace := Namespace k6; Spec := Spec k6;
     Status := {| Stage := s; TestRunID := TestRunID (Status k6);
                  Conditions := Conditions (Status k6) |} |}.

Definition setStatus (st : K6Status) (k6 : K6) : K6 :=
  {| Name := Name k6; Namespace := Namespace k6; Spec := Spec k6; Status := st |}.

(** Modelled from the spec: the condition helpers of api/v1alpha1 (IsTrue,
    IsFalse, IsUnknown, UpdateCondition), which the sources call and do not
    define.  A condition is a named tri-state flag; a flag that is not
    recorded is neither true, false nor unknown. *)
Definition condition (k6 : K6) (c : string) : option ConditionStatus :=
  Conditions (Status k6) !! c.

Definition IsTrue (k6 : K6) (c : string) : bool :=
  bool_decide (condition k6 c = Some ConditionTrue).

Definition IsFalse (k6 : K6) (c : string) : bool :=
  bool_decide (condition k6 c = Some ConditionFalse).

Definition IsUnknown (k6 : K6) (c : string) : bool :=
  bool_decide (condition k6 c = Some ConditionUnknown).

Definition UpdateCondition (c : string) (s : ConditionStatus) (k6 : K6) : K6 :=
  {| Name := Name k6; Namespace := Namespace k6; Spec := Spec k6;
     Status := {| Stage := Stage (Status k6); TestRunID := TestRunID (Status k6);
                  Conditions := <[c := s]> (Conditions (Status k6)) |} |}.

Record Service : Type := {
  svcName : string;        (* ObjectMeta.Name *)
  svcNamespace : string;   (* ObjectMeta.Namespace *)
  ClusterIP : string       (* Spec.ClusterIP *)
}.

Record Job : Type := { jobName : string; jobNamespace : string }.

Record NamespacedName : Type := { nnNamespace : string; nnName : string }.

(** [client.ListOptions]: a label selector built from a set, and a namespace. *)
Record ListOptions : Type := {
  LabelSelector : gmap string string;
  optNamespace : string
}.

Inductive DeletionPropagation : Type :=
| DeletePropagationOrphan
| DeletePropagationBackground
| DeletePropagationForeground.

(** [ctrl.Result]; [RequeueAfter] is a [time.Duration], in nanoseconds. *)
Record Result : Type := { Requeue : bool; RequeueAfter : Z }.

Definition Second : Z := 1000000000.
Definition Result_zero : Result := {| Requeue := false; RequeueAfter := 0 |}.

Record Request : Type := { reqNamespacedName : NamespacedName }.
Record Context : Type := { ReconcileID : string }.

(** What an HTTP GET gives back when it gives anything: the status code and the
    outcome of reading the body to its end ([ioutil.ReadAll]). *)
Record Response : Type := { StatusCode : Z; Body : error + string }.

(** [k6api.Status], as [StatusJSONAPI.Status()] returns it. *)
Record k6Status : Type := { Running : bool; Stopped : bool; Tainted : bool }.

(** Modelled from the spec: the cloud client of package cloud, built from a
    token and a host override. *)
Record CloudClient : Type := { ccToken : string; ccHost : string }.

(** ** Logging *)

Inductive LogArg : Type :=
| AStr (s : string)
| AInt (z : Z).

Inductive LogLevel : Type := LvlInfo | LvlError.

(** A [logr.Logger] value is the key/value context it carries. *)
Definition Logger : Type := list (string * string).

Record LogEntry : Type := {
  lvl : LogLevel;
  keyvals : Logger;
  lerr : option error;
  fmt : string;          (* message, or the format of [fmt.Sprintf] *)
  fargs : list LogArg
}.

Definition WithValues (log : Logger) (kv : list (string * string)) : Logger :=
  (log ++ kv)%list.

(** ** 32-bit counters *)

Definition int32 (z : Z) : Z := (z + 2 ^ 31) mod 2 ^ 32 - 2 ^ 31.

(** ** The reconciler and the effects it has *)

(** Calls that leave the process, in the order they are made. *)
Inductive Call : Type :=
| CallGet (nn : NamespacedName)
| CallListServices (o : ListOptions)
| CallListJobs (o : ListOptions)
| CallDeleteJob (j : Job) (p : DeletionPropagation)
| CallDeleteK6 (k6 : K6)
| CallStatusPatch (obj base : K6)
| CallHttpGet (url : string)
| CallLoadToken (name : string) (o : ListOptions)
| CallFinishTestRun (id : string)
| CallGetTestRunState (id : string).

(** [K6Reconciler]: the embedded client (the cluster state [W] it talks to),
    the logger and the memoized cloud client.  [Logged] and [Calls] are the
    record of what was written to the log and of the calls made. *)
Record K6Reconciler (W : Type) : Type := {
  Client : W;
  Log : Logger;
  K6CloudClient : option CloudClient;
  Logged : list LogEntry;
  Calls : list Call
}.
Arguments Client {W} _.
Arguments Log {W} _.
Arguments K6CloudClient {W} _.
Arguments Logged {W} _.
Arguments Calls {W} _.

Definition M (W A : Type) : Type := K6Reconciler W -> A * K6Reconciler W.

Definition ret {W A} (a : A) : M W A := fun r => (a, r).

Definition bind {W A B} (m : M W A) (k : A -> M W B) : M W B :=
  fun r => let (a, r') := m r in k a r'.

Notation "'let*' x ':=' m 'in' k" := (bind m (fun x => k))
  (at level 10, x pattern, m at level 100, k at level 200).

(** A statement of a function body either goes on to the next statement or
    returns from the function. *)
Inductive Flow (R A : Type) : Type :=
| Next (a : A)
| Return (res : R).
Arguments Next {R A} _.
Arguments Return {R A} _.

Definition next {W R A} (a : A) : M W (Flow R A) := ret (Next a).
Definition return_ {W R A} (res : R) : M W (Flow R A) := ret (Return res).

Definition bindF {W R A B} (m : M W (Flow R A)) (k : A -> M W (Flow R B))
  : M W (Flow R B) :=
  bind m (fun f => match f with
                   | Next a => k a
                   | Return res => ret (Return res)
                   end).

Notation "'let?' x ':=' m 'in' k" := (bindF m (fun x => k))
  (at level 10, x pattern, m at level 100, k at level 200).

(** The end of a function body whose last statement returns. *)
Definition body {W R} (m : M W (Flow R R)) : M W R :=
  bind m (fun f => match f with Next a => ret a | Return res => ret res end).

(** The reconciler after a log entry was written. *)
Definition logged {W} (e : LogEntry) (r : K6Reconciler W) : K6Reconciler W :=
  {| Client := Client r; Log := Log r; K6CloudClient := K6CloudClient r;
     Logged := (Logged r ++ [e])%list; Calls := Calls r |}.

(** The reconciler after the call [c], which left the cluster as [w]. *)
Definition called {W} (c : Call) (w : W) (r : K6Reconciler W) : K6Reconciler W :=
  {| Client := w; Log := Log r; K6CloudClient := K6CloudClient r;
     Logged := Logged r; Calls := (Calls r ++ [c])%list |}.

Definition emit {W} (e : LogEntry) : M W unit := fun r => (tt, logged e r).

Definition infoLine (log : Logger) (msg : string) (args : list LogArg) : LogEntry :=
  {| lvl := LvlInfo; keyvals := log; lerr := None; fmt := msg; fargs := args |}.

Definition errorLine (log : Logger) (err : option error) (msg : string)
    (args : list LogArg) : LogEntry :=
  {| lvl := LvlError; keyvals := log; lerr := err; fmt := msg; fargs := args |}.

Definition Info {W} (log : Logger) (msg : string) (args : list LogArg) : M W unit :=
  emit (infoLine log msg args).

Definition Error {W} (log : Logger) (err : option error) (msg : string)
    (args : list LogArg) : M W unit :=
  emit (errorLine log err msg args).

(** A call on the cluster: the cluster answers and moves, the call is recorded. *)
Definition call {W A} (c : Call) (op : W -> A * W) : M W A :=
  fun r => let (a, w) := op (Client r) in (a, called c w r).

Definition getCloudClient {W} : M W (option CloudClient) :=
  fun r => (K6CloudClient r, r).

Definition setCloudClient {W} (c : CloudClient) : M W unit :=
  fun r => (tt, {| Client := Client r; Log := Log r; K6CloudClient := Some c;
                   Logged := Logged r; Calls := Calls r |}).

Definition getLog {W} : M W Logger := fun r => (Log r, r).

(** The cluster as the code reaches it: the API server through
    [client.Client] and the workers through [http.Get].  Every call may fail
    and may change the cluster. *)
Class Cluster (W : Type) : Type := {
  Get : NamespacedName -> W -> (error + K6) * W;
  ListServices : ListOptions -> W -> (error + list Service) * W;
  ListJobs : ListOptions -> W -> (error + list Job) * W;
  DeleteJob : Job -> DeletionPropagation -> W -> option error * W;
  DeleteK6 : K6 -> W -> option error * W;
  (* Status().Patch(ctx, obj, client.MergeFrom(base)): on success the object
     is refreshed from the answer *)
  StatusPatch : K6 -> K6 -> W -> (error + K6) * W;
  httpGet : string -> W -> (error + Response) * W;
  (* encoding/json into k6api.StatusJSONAPI, then Status() *)
  jsonUnmarshalStatus : string -> error + k6Status
}.

(** The functions of the repository that the sources call and do not define:
    the job helpers of package controllers, [loadToken] and [getEnvVar], the
    calls of package cloud, and the status methods of api/v1alpha1.  The
    helpers that receive the reconciler act on it; the calls of package cloud
    and [loadToken] receive a client and act on the cluster. *)
Class Collaborators (W : Type) : Type := {
  InitializeJobs : Context -> Logger -> K6 -> M W (Result * option error);
  RunValidations : Context -> Logger -> K6 -> M W (Result * option error);
  SetupCloudTest : Context -> Logger -> K6 -> M W (Result * option error);
  CreateJobs : Context -> Logger -> K6 -> M W (Result * option error);
  StartJobs : Context -> Logger -> K6 -> M W (Result * option error);
  StopJobs : Context -> Logger -> K6 -> M W (Result * option error);
  FinishJobs : Context -> Logger -> K6 -> M W bool;
  (* the bulk deletion as the stopped stage calls it,
     [allDeleted, err := KillJobs(ctx, log, k6, r)]; the definition in the
     poller file, [KillJobs] below, has the one result [err] *)
  KillJobsAllDeleted : Context -> Logger -> K6 -> M W (bool * option error);
  (* loadToken(ctx, log, r.Client, name, opts) = (token, tokenReady, err) *)
  loadToken : string -> ListOptions -> W -> (string * bool * option error) * W;
  getEnvVar : list EnvVar -> string -> string;
  FinishTestRun : option CloudClient -> string -> W -> option error * W;
  GetTestRunState : option CloudClient -> string -> W -> (error + Z) * W;
  Aborted : Z -> bool;                       (* TestRunStatus.Aborted() *)
  Initialize : K6 -> K6;                     (* k6.Initialize() *)
  (* k6.Status.SetIfNewer(proposed): whether the proposal is newer, and the
     receiver after the merge *)
  SetIfNewer : K6Status -> K6Status -> bool * K6Status
}.

(** Modelled from the spec: cloud.NewClient(log, token, host), which builds
    the client from the token and the host override. *)
Definition NewClient (log : Logger) (token host : string) : CloudClient :=
  {| ccToken := token; ccHost := host |}.

Section Operator.

Context {W : Type} `{!Cluster W} `{!Collaborators W}.

(** ** The worker-lifecycle poller *)

Definition statusURL (service : Service) : string :=
  "http://" ++ svcName service ++ "." ++ svcNamespace service
    ++ ".svc.cluster.local:6565/v1/status".

Definition isJobRunning (log : Logger) (service : Service) : M W bool :=
  let* resp := call (CallHttpGet (statusURL service)) (httpGet (statusURL service)) in
  match resp with
  | inl err => ret false
  | inr resp =>
      (* Response has been received so assume the job is running. *)
      if 400 <=? StatusCode resp then
        let* _ := Error log None "status from from runner job %v is %d"
                    [AStr (svcName service); AInt (StatusCode resp)] in
        ret true
      else
        match Body resp with
        | inl err =>
            let* _ := Error log (Some err)
                        "Error on reading status of the runner job %v"
                        [AStr (svcName service)] in
            ret true
        | inr data =>
            match jsonUnmarshalStatus data with
            | inl err =>
                let* _ := Error log (Some err)
                            "Error on parsing status of the runner job %v"
                            [AStr (svcName service)] in
                ret true
            | inr status => ret (Stopped status)
            end
        end
  end.

(** labels.SelectorFromSet of app = k6, k6_cr = the name of the run and
    runner = true; with the namespace of the run, the options of both
    listings. *)
Definition runnerSelector (k6 : K6) : gmap string string :=
  <["app" := "k6"]> (<["k6_cr" := Name k6]> (<["runner" := "true"]> ∅)).

Definition runnerOpts (k6 : K6) : ListOptions :=
  {| LabelSelector := runnerSelector k6; optNamespace := Namespace k6 |}.

Definition withTestRunId (log : Logger) (k6 : K6) : Logger :=
  if (0 <? String.length (TestRunID (Status k6)))%nat
  then WithValues log [("testRunId", TestRunID (Status k6))]
  else log.

(** for _, service := range sl.Items { hostnames = append(...); if
    isJobRunning(log, &service) { count++ } } *)
Fixpoint StoppedJobs_range (log : Logger) (items : list Service)
    (hostnames : list string) (count : Z) : M W (list string * Z) :=
  match items with
  | [] => ret (hostnames, count)
  | service :: rest =>
      let hostnames := (hostnames ++ [ClusterIP service])%list in
      let* running := isJobRunning log service in
      let count := if running then int32 (count + 1) else count in
      StoppedJobs_range log rest hostnames count
  end.

(** StoppedJobs checks if the runners pods have stopped execution. *)
Definition StoppedJobs (ctx : Context) (log : Logger) (k6 : K6) : M W bool :=
  let log := withTestRunId log k6 in
  let* _ := Info log "Waiting for pods to stop the test run" [] in
  let opts := runnerOpts k6 in
  let* sl := call (CallListServices opts) (ListServices opts) in
  match sl with
  | inl err =>
      let* _ := Error log (Some err) "Could not list services" [] in
      ret false
  | inr items =>
      let* (hostnames, count) := StoppedJobs_range log items [] 0 in
      let* _ := Info log "%d/%d runners stopped execution"
                  [AInt (int32 (Parallelism (Spec k6) - count));
                   AInt (Parallelism (Spec k6))] in
      if 0 <? count then ret false else ret true
  end.

(** for _, job := range jl.Items { if err = r.Delete(...); err != nil {
    log.Error(...) } } *)
Fixpoint KillJobs_range (log : Logger) (items : list Job) : M W unit :=
  match items with
  | [] => ret tt
  | job :: rest =>
      let* err := call (CallDeleteJob job DeletePropagationBackground)
                       (DeleteJob job DeletePropagationBackground) in
      let* _ := match err with
                | Some e => Error log (Some e) "Failed to delete runner job %s"
                              [AStr (jobName job)]
                | None => ret tt
                end in
      KillJobs_range log rest
  end.

Definition KillJobs (ctx : Context) (log : Logger) (k6 : K6) : M W (option error) :=
  let log := withTestRunId log k6 in
  let* _ := Info log "Checking if all runner pods are finished" [] in
  let opts := runnerOpts k6 in
  let* jl := call (CallListJobs opts) (ListJobs opts) in
  match jl with
  | inl err =>
      let* _ := Error log (Some err) "Could not list jobs" [] in
      ret (Some err)
  | inr items =>
      let* _ := KillJobs_range log items in
      ret None
  end.

(** *** What the probes of one poll were answered

    The replies the loop of [StoppedJobs] receives, in the order of the
    services, each probe made on the cluster the previous one left. *)
Fixpoint probeReplies (items : list Service) (w : W) : list (error + Response) :=
  match items with
  | [] => []
  | service :: rest =>
      let (reply, w') := httpGet (statusURL service) w in
      reply :: probeReplies rest w'
  end.

(** No response: the GET itself failed. *)
Definition noResponse (reply : error + Response) : bool :=
  match reply with inl _ => true | inr _ => false end.

(** A response came and it is of no use: an error-range code, a body that
    cannot be read, or a body that cannot be decoded. *)
Definition probeFailed (reply : error + Response) : bool :=
  match reply with
  | inl _ => false
  | inr resp =>
      (400 <=? StatusCode resp)
      || match Body resp with
         | inl _ => true
         | inr data =>
             match jsonUnmarshalStatus data with
             | inl _ => true
             | inr _ => false
             end
         end
  end.

(** What [isJobRunning] answers, as a function of the reply to its GET. *)
Definition verdict (reply : error + Response) : bool :=
  match reply with
  | inl _ => false
  | inr resp =>
      if 400 <=? StatusCode resp then true
      else match Body resp with
           | inl _ => true
           | inr data =>
               match jsonUnmarshalStatus data with
               | inl _ => true
               | inr status => Stopped status
               end
           end
  end.

(** ** The status updater *)

(** The object [k6] points to is written by the re-fetch, by the merge and by
    a successful patch: the third component is the object after the call.
    [proposedStatus] is the copy of the status taken on entry. *)
Definition UpdateStatus (ctx : Context) (k6 : K6) (log : Logger)
    : M W (bool * option error * K6) :=
  let proposedStatus := Status k6 in
  (* re-fetch resource *)
  let nn := {| nnNamespace := Namespace k6; nnName := Name k6 |} in
  let* got := call (CallGet nn) (Get nn) in
  match got with
  | inl err =>
      if IsNotFound err then
        let* _ := Info log "Request deleted. No status to update." [] in
        ret (false, None, k6)
      else
        let* _ := Error log (Some err) "Could not fetch request" [] in
        ret (false, Some err, k6)
  | inr k6 =>
      let cleanObj := k6 in
      (* Update only if it's truly a newer version of the resource
         in comparison to the recently fetched resource. *)
      let (isNewer, merged) := SetIfNewer (Status k6) proposedStatus in
      let k6 := setStatus merged k6 in
      if negb isNewer then ret (false, None, k6)
      else
        let* patched := call (CallStatusPatch k6 cleanObj) (StatusPatch k6 cleanObj) in
        match patched with
        | inl err =>
            let* _ := Error log (Some err)
                        "Could not update status of custom resource" [] in
            ret (false, Some err, k6)
        | inr k6 => ret (true, None, k6)
        end
  end.

(** ** The cloud coordination *)

(** ShouldAbort retrieves the status of test run from the Cloud and whether it
    should cause a forced stop. It is meant to be used only by PLZ test runs. *)
Definition ShouldAbort (ctx : Context) (k6 : K6) (log : Logger) : M W bool :=
  (* sanity check *)
  if (String.length (TestRunID (Status k6)) =? 0)%nat then
    let* _ := Error log (Some (ErrOther "empty test run ID"))
                "Trying to get state of test run with empty test run ID" [] in
    ret false
  else
    let* c := getCloudClient in
    let* st := call (CallGetTestRunState (TestRunID (Status k6)))
                    (GetTestRunState c (TestRunID (Status k6))) in
    match st with
    | inl err =>
        let* _ := Error log (Some err) "Failed to get test run state." [] in
        ret false
    | inr status =>
        let isAborted := Aborted status in
        let* _ := Info log "Received test run status %v" [AInt status] in
        ret isAborted
    end.

Definition createClient (ctx : Context) (k6 : K6) (log : Logger)
    : M W (bool * option error) :=
  let* c := getCloudClient in
  match c with
  | None =>
      let opts := {| LabelSelector := ∅; optNamespace := Namespace k6 |} in
      let* tok := call (CallLoadToken (Token (Spec k6)) opts)
                       (loadToken (Token (Spec k6)) opts) in
      match tok with
      | (_, _, Some err) =>
          let* _ := Error log (Some err) "A problem while getting token." [] in
          ret (false, Some err)
      | (token, tokenReady, None) =>
          if negb tokenReady then ret (false, None)
          else
            let host := getEnvVar (RunnerEnv (Spec k6)) "K6_CLOUD_HOST" in
            let* _ := setCloudClient (NewClient log token host) in
            ret (true, None)
      end
  | Some _ => ret (true, None)
  end.

(** ** The reconciliation state machine *)

(** What [Reconcile] returns: a scheduling directive and an optional error. *)
Definition Outcome : Type := (Result * option error)%type.

(** if k6.IsTrue(v1alpha1.CloudPLZTestRun) { bootstrap the client } *)
Definition Reconcile_bootstrap (ctx : Context) (log : Logger) (k6 : K6)
    : M W (Flow Outcome unit) :=
  if IsTrue k6 CloudPLZTestRun then
    let* (found, err) := createClient ctx k6 log in
    match err with
    | Some err =>
        let* _ := Error log (Some err) "A problem while getting token." [] in
        return_ (Result_zero, Some err)
    | None =>
        if negb found then
          let* _ := Info log "Token `%s` is not found yet."
                      [AStr (Token (Spec k6))] in
          return_ ({| Requeue := false; RequeueAfter := Second |}, None)
        else next tt
    end
  else next tt.

(** case "" *)
Definition Reconcile_unset (ctx : Context) (log : Logger) (k6 : K6)
    : M W (Flow Outcome unit) :=
  let* _ := Info log "Initialize test" [] in
  let k6 := Initialize k6 in
  let* (ue, k6) := UpdateStatus ctx k6 log in
  match snd ue with
  | Some err => return_ (Result_zero, Some err)
  | None =>
      let* _ := Info log "Changing stage of K6 status to initialization" [] in
      let k6 := setStage "initialization" k6 in
      let* (ue, k6) := UpdateStatus ctx k6 log in
      match ue with
      | (_, Some err) => return_ (Result_zero, Some err)
      | (true, None) =>
          let* res := InitializeJobs ctx log k6 in
          return_ res
      | (false, None) => return_ (Result_zero, None)
      end
  end.

(** case "initialization" *)
Definition Reconcile_initialization (ctx : Context) (log : Logger) (k6 : K6)
    : M W (Flow Outcome unit) :=
  if IsUnknown k6 CloudTestRun then
    let* res := RunValidations ctx log k6 in
    return_ res
  else
    let? k6 :=
      (if IsFalse k6 CloudTestRun then
         (* RunValidations has already happened and this is not a
            cloud test: we can move on *)
         let* _ := Info log "Changing stage of K6 status to initialized" [] in
         let k6 := setStage "initialized" k6 in
         let* (ue, k6) := UpdateStatus ctx k6 log in
         match ue with
         | (_, Some err) => return_ (Result_zero, Some err)
         | (true, None) => return_ (Result_zero, None)
         | (false, None) => next k6
         end
       else next k6) in
    if IsTrue k6 CloudTestRun then
      if IsFalse k6 CloudTestRunCreated then
        let* res := SetupCloudTest ctx log k6 in
        return_ res
      else
        (* if test run was created, then only changing status is left *)
        let* _ := Info log "Changing stage of K6 status to initialized" [] in
        let k6 := setStage "initialized" k6 in
        let* (ue, k6) := UpdateStatus ctx k6 log in
        match snd ue with
        | Some err => return_ (Result_zero, Some err)
        | None => return_ (Result_zero, None)
        end
    else return_ (Result_zero, None).

(** case "started" *)
Definition Reconcile_started (ctx : Context) (log : Logger) (k6 : K6)
    : M W (Flow Outcome unit) :=
  if IsTrue k6 CloudTestRun && IsTrue k6 CloudTestRunFinalized then
    (* a fluke - nothing to do *)
    return_ (Result_zero, None)
  else if IsTrue k6 CloudTestRunAborted then
    (* a fluke - nothing to do *)
    return_ (Result_zero, None)
  else
    (* wait for the test to finish *)
    let* finished := FinishJobs ctx log k6 in
    if negb finished then
      let? _ :=
        (if IsTrue k6 CloudPLZTestRun && IsFalse k6 CloudTestRunAborted then
           (* check in with the BE for status *)
           let* abort := ShouldAbort ctx k6 log in
           if abort then
             let* _ := Info log
               "Received an abort signal from the k6 Cloud: stopping the test." [] in
             let* res := StopJobs ctx log k6 in
             return_ res
           else next tt
         else next tt) in
      (* The test continues to execute. *)
      return_ ({| Requeue := false; RequeueAfter := Second * 15 |}, None)
    else
      let* _ := Info log "All runner pods are finished" [] in
      (* now mark it as stopped *)
      let? _ :=
        (if IsTrue k6 TestRunRunning then
           let k6 := UpdateCondition TestRunRunning ConditionFalse k6 in
           let* _ := Info log "Changing stage of K6 status to stopped" [] in
           let k6 := setStage "stopped" k6 in
           let* (ue, k6) := UpdateStatus ctx k6 log in
           match snd ue with
           | Some err => return_ (Result_zero, Some err)
           | None => next tt
           end
         else next tt) in
      return_ (Result_zero, None).

(** case "stopped", first statement: the forced abort of a PLZ test run *)
Definition Reconcile_stopped_abort (ctx : Context) (log : Logger) (k6 : K6)
    : M W (Flow Outcome K6) :=
  if IsTrue k6 CloudPLZTestRun && IsTrue k6 CloudTestRunAborted then
    (* This is a "forced" abort of the PLZ test run.
       Wait until all the test runs are stopped, kill jobs and proceed. *)
    let* stopped := StoppedJobs ctx log k6 in
    if stopped then
      let* (allDeleted, err) := KillJobsAllDeleted ctx log k6 in
      match err with
      | Some err => return_ ({| Requeue := false; RequeueAfter := Second |}, Some err)
      | None =>
          (* if we just have deleted all jobs, update status and go for
             reconcile *)
          if (allDeleted : bool) then
            let k6 := UpdateCondition CloudTestRunAborted ConditionTrue k6 in
            let* (ue, k6) := UpdateStatus ctx k6 log in
            match snd ue with
            | Some err => return_ (Result_zero, Some err)
            | None => next k6
            end
          else next k6
      end
    else next k6
  else next k6.

(** case "stopped", second statement: if this is a cloud test run in any
    mode, try to finalize it. *)
Definition Reconcile_stopped_finalize (ctx : Context) (log : Logger) (k6 : K6)
    : M W (Flow Outcome K6) :=
  if IsTrue k6 CloudTestRun && IsFalse k6 CloudTestRunFinalized then
    let* c := getCloudClient in
    let* err := call (CallFinishTestRun (TestRunID (Status k6)))
                     (FinishTestRun c (TestRunID (Status k6))) in
    match err with
    | Some err =>
        let* _ := Error log (Some err)
                    "Failed to finalize the test run with cloud output" [] in
        return_ (Result_zero, None)
    | None =>
        let* _ := Info log "Cloud test run %s was finalized succesfully"
                    [AStr (TestRunID (Status k6))] in
        next (UpdateCondition CloudTestRunFinalized ConditionTrue k6)
    end
  else next k6.

(** case "stopped", the rest: change the stage to finished *)
Definition Reconcile_stopped_finish (ctx : Context) (log : Logger) (k6 : K6)
    : M W (Flow Outcome unit) :=
  let* _ := Info log "Changing stage of K6 status to finished" [] in
  let k6 := setStage "finished" k6 in
  let* (ue, k6) := UpdateStatus ctx k6 log in
  match snd ue with
  | Some err => return_ (Result_zero, Some err)
  | None => return_ ({| Requeue := false; RequeueAfter := Second |}, None)
  end.

(** case "stopped" *)
Definition Reconcile_stopped (ctx : Context) (log : Logger) (k6 : K6)
    : M W (Flow Outcome unit) :=
  let? k6 := Reconcile_stopped_abort ctx log k6 in
  let? k6 := Reconcile_stopped_finalize ctx log k6 in
  Reconcile_stopped_finish ctx log k6.

(** case "error", "finished" *)
Definition Reconcile_terminal (ctx : Context) (log : Logger) (k6 : K6)
    : M W (Flow Outcome unit) :=
  (* delete if configured *)
  let* _ :=
    (if String.eqb (Cleanup (Spec k6)) "post" then
       let* _ := Info log "Cleaning up all resources" [] in
       let* _ := call (CallDeleteK6 k6) (DeleteK6 k6) in
       ret tt
     else ret tt) in
  (* notify if configured *)
  return_ (Result_zero, None).

(** switch k6.Status.Stage *)
Definition Reconcile_switch (ctx : Context) (log : Logger) (k6 : K6)
    : M W (Flow Outcome unit) :=
  let stage := Stage (Status k6) in
  if String.eqb stage "" then Reconcile_unset ctx log k6
  else if String.eqb stage "initialization" then Reconcile_initialization ctx log k6
  else if String.eqb stage "initialized" then
    let* res := CreateJobs ctx log k6 in return_ res
  else if String.eqb stage "created" then
    let* res := StartJobs ctx log k6 in return_ res
  else if String.eqb stage "started" then Reconcile_started ctx log k6
  else if String.eqb stage "stopped" then Reconcile_stopped ctx log k6
  else if String.eqb stage "error" || String.eqb stage "finished" then
    Reconcile_terminal ctx log k6
  else next tt.

(** r.Log.WithValues("namespace", ..., "name", ..., "reconcileID", ...) *)
Definition requestLogger (rlog : Logger) (ctx : Context) (req : Request) : Logger :=
  WithValues rlog
    [("namespace", nnNamespace (reqNamespacedName req));
     ("name", nnName (reqNamespacedName req));
     ("reconcileID", ReconcileID ctx)].

(** Reconcile takes a K6 object and takes the appropriate action in the
    cluster *)
Definition Reconcile (ctx : Context) (req : Request) : M W Outcome :=
  body (
    let* rlog := getLog in
    let log := requestLogger rlog ctx req in
    (* Fetch the CRD *)
    let* got := call (CallGet (reqNamespacedName req)) (Get (reqNamespacedName req)) in
    match got with
    | inl err =>
        if IsNotFound err then
          let* _ := Info log "Request deleted. Nothing to reconcile." [] in
          return_ (Result_zero, None)
        else
          let* _ := Error log (Some err) "Could not fetch request" [] in
          return_ ({| Requeue := true; RequeueAfter := 0 |}, Some err)
    | inr k6 =>
        let? _ := Reconcile_bootstrap ctx log k6 in
        let* _ := Info log "Reconcile(); stage = %s" [AStr (Stage (Status k6))] in
        let? _ := Reconcile_switch ctx log k6 in
        let err := ErrOther "invalid status" in
        let* _ := Error log (Some err) "Invalid status for the k6 resource." [] in
        return_ (Result_zero, Some err)
    end).

(** Where a reconciliation stands when it reaches the switch on the stage:
    the run it fetched and the reconciler after the fetch, the bootstrap of
    the cloud client and the log line; nothing when it returns before. *)
Definition Reconcile_enter (ctx : Context) (req : Request) (r : K6Reconciler W)
    : option (K6 * K6Reconciler W) :=
  let log := requestLogger (Log r) ctx req in
  let nn := reqNamespacedName req in
  match call (CallGet nn) (Get nn) r with
  | (inl _, _) => None
  | (inr k6, r1) =>
      match Reconcile_bootstrap ctx log k6 r1 with
      | (Return _, _) => None
      | (Next _, rb) =>
          Some (k6, snd (Info log "Reconcile(); stage = %s"
                           [AStr (Stage (Status k6))] rb))
      end
  end.

(** What [Reconcile] returns once the switch is over: the result of the case
    that returned, or the error of an invalid stage. *)
Definition Reconcile_leave (log : Logger)
    (sw : Flow Outcome unit * K6Reconciler W) : Outcome * K6Reconciler W :=
  match sw with
  | (Return res, r') => (res, r')
  | (Next _, r') =>
      ((Result_zero, Some (ErrOther "invalid status")),
       logged (errorLine log (Some (ErrOther "invalid status"))
                 "Invalid status for the k6 resource." []) r')
  end.

(** The calls a list of calls holds that write the status of a run. *)
Definition statusPatches (cs : list Call) : list Call :=
  List.filter (fun c => match c with CallStatusPatch _ _ => true | _ => false end) cs.

(** A computation keeps the cloud client [c] when it leaves a reconciler that
    holds [c] holding [c]. *)
Definition keepsClient {A} (c : CloudClient) (m : M W A) : Prop :=
  forall r, K6CloudClient r = Some c -> K6CloudClient (snd (m r)) = Some c.

(** The helpers that receive the reconciler keep its cloud client. *)
Definition helpersKeepClient (c : CloudClient) : Prop :=
  (forall ctx log k6, keepsClient c (InitializeJobs ctx log k6))
  /\ (forall ctx log k6, keepsClient c (RunValidations ctx log k6))
  /\ (forall ctx log k6, keepsClient c (SetupCloudTest ctx log k6))
  /\ (forall ctx log k6, keepsClient c (CreateJobs ctx log k6))
  /\ (forall ctx log k6, keepsClient c (StartJobs ctx log k6))
  /\ (forall ctx log k6, keepsClient c (StopJobs ctx log k6))
  /\ (forall ctx log k6, keepsClient c (FinishJobs ctx log k6))
  /\ (forall ctx log k6, keepsClient c (KillJobsAllDeleted ctx log k6)).

End Operator.

Section Sweeps.

Context {W : Type} `{!Cluster W}.

(** The status a reply carries, when the reply is a response below 400 whose
    body was read and decoded. *)
Definition decodedStatus (reply : error + Response) : option k6Status :=
  match reply with
  | inl _ => None
  | inr resp =>
      if 400 <=? StatusCode resp then None
      else match Body resp with
           | inl _ => None
           | inr data =>
               match jsonUnmarshalStatus data with
               | inl _ => None
               | inr status => Some status
               end
           end
  end.

(** The answers the loop of [KillJobs] receives, job by job, each deletion
    requested on the cluster the previous one left. *)
Fixpoint sweepReplies (items : list Job) (w : W) : list (Job * option error) :=
  match items with
  | [] => []
  | job :: rest =>
      let (err, w') := DeleteJob job DeletePropagationBackground w in
      (job, err) :: sweepReplies rest w'
  end.

(** The line [KillJobs] logs for an answer: one line for each refusal. *)
Definition sweepLine (log : Logger) (a : Job * option error) : list LogEntry :=
  match snd a with
  | Some e => [errorLine log (Some e) "Failed to delete runner job %s"
                 [AStr (jobName (fst a))]]
  | None => []
  end.

End Sweeps.

Section Deletions.

Context {W : Type} `{!Cluster W} `{!Collaborators W}.

(** The calls a list of calls holds that delete a run object. *)
Definition runDeletions (cs : list Call) : list Call :=
  List.filter (fun c => match c with CallDeleteK6 _ => true | _ => false end) cs.

(** A computation that requests the deletion of no run object. *)
Definition deletesNoRun {A} (m : M W A) : Prop :=
  forall r, runDeletions (Calls (snd (m r))) = runDeletions (Calls r).

(** The helpers that receive the reconciler request no such deletion. *)
Definition helpersDeleteNoRun : Prop :=
  (forall ctx log k6, deletesNoRun (InitializeJobs ctx log k6))
  /\ (forall ctx log k6, deletesNoRun (RunValidations ctx log k6))
  /\ (forall ctx log k6, deletesNoRun (SetupCloudTest ctx log k6))
  /\ (forall ctx log k6, deletesNoRun (CreateJobs ctx log k6))
  /\ (forall ctx log k6, deletesNoRun (StartJobs ctx log k6))
  /\ (forall ctx log k6, deletesNoRun (StopJobs ctx log k6))
  /\ (forall ctx log k6, deletesNoRun (FinishJobs ctx log k6))
  /\ (forall ctx log k6, deletesNoRun (KillJobsAllDeleted ctx log k6)).

(** The run is in a terminal stage and its cleanup policy is "post". *)
Definition terminalPost (k6 : K6) : bool :=
  (String.eqb (Stage (Status k6)) "error" || String.eqb (Stage (Status k6)) "finished")
  && String.eqb (Cleanup (Spec k6)) "post".

End Deletions.

(** ** The event router (SetupWithManager)

    The map function and the predicate given to the watch on pods. *)

Definition k6CrLabelName : string := "k6_cr".

Record Pod : Type := { podLabels : gmap string string; podNamespace : string }.

(** handler.EnqueueRequestsFromMapFunc(func(object client.Object)
    []reconcile.Request { ... }) *)
Definition podRequests (pod : Pod) : list Request :=
  match podLabels pod !! k6CrLabelName with
  | None => []
  | Some k6CrName =>
      [{| reqNamespacedName :=
            {| nnNamespace := podNamespace pod; nnName := k6CrName |} |}]
  end.

(** predicate.NewPredicateFuncs(func(object client.Object) bool { ... }) *)
Definition podPredicate (pod : Pod) : bool :=
  match podLabels pod !! k6CrLabelName with
  | None => false
  | Some _ => true
  end.

(** ** pkg/resources/containers/s3.go *)

Inductive Format : Type := DecimalSI | BinarySI.

(** resource.NewMilliQuantity(v, f) and resource.NewQuantity(v, f) *)
Inductive Quantity : Type :=
| NewMilliQuantity (v : Z) (f : Format)
| NewQuantity (v : Z) (f : Format).

Definition ResourceCPU : string := "cpu".
Definition ResourceMemory : string := "memory".

Record ResourceRequirements : Type := {
  Requests : gmap string Quantity;
  Limits : gmap string Quantity
}.

Record VolumeMount : Type := { vmName : string; vmMountPath : string }.

Record Container : Type := {
  cName : string;
  cImage : string;
  cEnv : list EnvVar;
  cResources : ResourceRequirements;
  cCommand : list string;
  cVolumeMounts : list VolumeMount
}.

(** fmt.Sprintf of the download line: the uri goes in as it is. *)
Definition downloadLine (uri : string) : string :=
  "curl -X GET -L '" ++ uri ++ "' > /test/archive.tar ; ls -l /test".

(** NewS3Container is used to download a script archive from S3. *)
Definition NewS3Container (uri image : string) (volumeMount : VolumeMount)
    (command : list string) (env : list EnvVar) : Container :=
  {| cName := "archive-download";
     cImage := image;
     cEnv := env;
     cResources :=
       {| Requests := <[ResourceCPU := NewMilliQuantity 50 DecimalSI]>
                        (<[ResourceMemory := NewQuantity 2097152 BinarySI]> ∅);
          Limits := <[ResourceCPU := NewMilliQuantity 100 DecimalSI]>
                      (<[ResourceMemory := NewQuantity 209715200 BinarySI]> ∅) |};
     cCommand := (command ++ [downloadLine uri])%list;
     cVolumeMounts := [volumeMount] |}.

(** The number of times a character occurs in a string. *)
Fixpoint occurrences (c : Ascii.ascii) (s : string) : nat :=
  match s with
  | EmptyString => 0%nat
  | String a rest => ((if Ascii.eqb a c then 1 else 0) + occurrences c rest)%nat
  end.

Definition quote : Ascii.ascii := Ascii.ascii_of_nat 39.

(** ** pkg/cloud/plz.go *)

(** The request [client.NewRequest] builds. *)
Record HTTPRequest (D : Type) : Type := {
  reqMethod : string;
  reqURL : string;
  reqData : option D
}.
Arguments reqMethod {D} _.
Arguments reqURL {D} _.
Arguments reqData {D} _.

(** [cloudapi.Client] as plz.go uses it, over the state [C] of the cloud and
    the registration data [D]: NewRequest builds a request or fails; Do sends
    it, and gives the error, if any, and the message the answer was decoded
    to (resp.Error.Message).  [errorString] is err.Error(). *)
Class CloudAPI (C D : Type) : Type := {
  NewRequest : string -> string -> option D -> error + HTTPRequest D;
  Do : HTTPRequest D -> C -> (option error * string) * C;
  errorString : error -> string
}.

Section PLZ.

Context {C D : Type} `{!CloudAPI C D}.

Definition mockCloud : string := "mock-cloud.k6-operator-system.svc.cluster.local:8080".

Definition RegisterPLZ (data : D) (c : C) : option error * C :=
  let url := "http://" ++ mockCloud ++ "/v1/load-zones" in
  match NewRequest "POST" url (Some data) with
  | inl err => (Some err, c)
  | inr req =>
      let '((err, message), c') := Do req c in
      match err with
      | Some err =>
          (Some (ErrOther ("Received error `" ++ errorString err
                             ++ "`. Message from server `" ++ message ++ "`")),
           c')
      | None => (None, c')
      end
  end.

Definition DeRegisterPLZ (name : string) (c : C) : option error * C :=
  let url := "http://" ++ mockCloud ++ "/v1/load-zones/" ++ name in
  match NewRequest "DELETE" url None with
  | inl err => (Some err, c)
  | inr req => let '((err, _), c') := Do req c in (err, c')
  end.

End PLZ.

(** ** A cluster to run the operator on

    A small cluster in the manner of the fake client of controller-runtime:
    stored objects with their labels, worker endpoints with canned replies,
    and switches that make a call fail. *)
Module Fake.

Record Cluster_state : Type := {
  objects : list K6;
  services : list (gmap string string * Service);
  jobs : list (gmap string string * Job);
  endpoints : list (string * (error + Response));
  getErr : option error;
  listErr : option error;
  patchErr : option error;
  deleteErr : list string;          (* names of the jobs that refuse deletion *)
  secret : option string;           (* the token, once the secret exists *)
  finalizeErr : option error;
  runState : error + Z;             (* what the cloud says of the test run *)
  jobsFinished : bool
}.

Definition sameObject (nn : NamespacedName) (k6 : K6) : bool :=
  String.eqb (Namespace k6) (nnNamespace nn) && String.eqb (Name k6) (nnName nn).

Definition selects (o : ListOptions) (labels : gmap string string) (ns : string) : bool :=
  String.eqb ns (optNamespace o)
  && bool_decide (map_Forall (fun k v => labels !! k = Some v) (LabelSelector o)).

Definition withObjects (objs : list K6) (w : Cluster_state) : Cluster_state :=
  {| objects := objs; services := services w; jobs := jobs w;
     endpoints := endpoints w; getErr := getErr w; listErr := listErr w;
     patchErr := patchErr w; deleteErr := deleteErr w; secret := secret w;
     finalizeErr := finalizeErr w; runState := runState w;
     jobsFinished := jobsFinished w |}.

Definition withJobs (js : list (gmap string string * Job)) (w : Cluster_state)
    : Cluster_state :=
  {| objects := objects w; services := services w; jobs := js;
     endpoints := endpoints w; getErr := getErr w; listErr := listErr w;
     patchErr := patchErr w; deleteErr := deleteErr w; secret := secret w;
     finalizeErr := finalizeErr w; runState := runState w;
     jobsFinished := jobsFinished w |}.

Definition fakeGet (nn : NamespacedName) (w : Cluster_state) : (error + K6) * Cluster_state :=
  match getErr w with
  | Some e => (inl e, w)
  | None =>
      match List.find (sameObject nn) (objects w) with
      | Some k6 => (inr k6, w)
      | None => (inl (ErrNotFound (nnName nn)), w)
      end
  end.

Definition fakeListServices (o : ListOptions) (w : Cluster_state)
    : (error + list Service) * Cluster_state :=
  match listErr w with
  | Some e => (inl e, w)
  | None =>
      (inr (List.map snd
              (List.filter (fun ls => selects o (fst ls) (svcNamespace (snd ls)))
                           (services w))), w)
  end.

Definition fakeListJobs (o : ListOptions) (w : Cluster_state)
    : (error + list Job) * Cluster_state :=
  match listErr w with
  | Some e => (inl e, w)
  | None =>
      (inr (List.map snd
              (List.filter (fun lj => selects o (fst lj) (jobNamespace (snd lj)))
                           (jobs w))), w)
  end.

Definition sameJob (j : Job) (lj : gmap string string * Job) : bool :=
  String.eqb (jobName (snd lj)) (jobName j)
  && String.eqb (jobNamespace (snd lj)) (jobNamespace j).

Definition fakeDeleteJob (j : Job) (p : DeletionPropagation) (w : Cluster_state)
    : option error * Cluster_state :=
  if List.existsb (String.eqb (jobName j)) (deleteErr w) then
    (Some (ErrOther "delete refused"), w)
  else if List.existsb (sameJob j) (jobs w) then
    (None, withJobs (List.filter (fun lj => negb (sameJob j lj)) (jobs w)) w)
  else (Some (ErrNotFound (jobName j)), w).

Definition k6Name (k6 : K6) : NamespacedName :=
  {| nnNamespace := Namespace k6; nnName := Name k6 |}.

Definition fakeDeleteK6 (k6 : K6) (w : Cluster_state) : option error * Cluster_state :=
  if List.existsb (sameObject (k6Name k6)) (objects w) then
    (None, withObjects (List.filter (fun o => negb (sameObject (k6Name k6) o))
                                    (objects w)) w)
  else (Some (ErrNotFound (Name k6)), w).

(** The status of the stored object is replaced by the status sent. *)
Definition fakeStatusPatch (obj base : K6) (w : Cluster_state)
    : (error + K6) * Cluster_state :=
  match patchErr w with
  | Some e => (inl e, w)
  | None =>
      match List.find (sameObject (k6Name obj)) (objects w) with
      | Some stored =>
          let new := setStatus (Status obj) stored in
          (inr new,
           withObjects (List.map (fun o => if sameObject (k6Name obj) o then new else o)
                                 (objects w)) w)
      | None => (inl (ErrNotFound (Name obj)), w)
      end
  end.

Definition fakeHttpGet (url : string) (w : Cluster_state)
    : (error + Response) * Cluster_state :=
  match List.find (fun e => String.eqb (fst e) url) (endpoints w) with
  | Some (_, reply) => (reply, w)
  | None => (inl (ErrOther "connection refused"), w)
  end.

(** The worker's answer, reduced to the word that matters. *)
Definition fakeUnmarshal (data : string) : error + k6Status :=
  if String.eqb data "running" then
    inr {| Running := true; Stopped := false; Tainted := false |}
  else if String.eqb data "stopped" then
    inr {| Running := false; Stopped := true; Tainted := false |}
  else inl (ErrOther "invalid character").

Global Instance cluster : Cluster Cluster_state := {|
  Get := fakeGet;
  ListServices := fakeListServices;
  ListJobs := fakeListJobs;
  DeleteJob := fakeDeleteJob;
  DeleteK6 := fakeDeleteK6;
  StatusPatch := fakeStatusPatch;
  httpGet := fakeHttpGet;
  jsonUnmarshalStatus := fakeUnmarshal
|}.

(** Modelled from the spec: the forward-only merge of api/v1alpha1
    (SetIfNewer), which the sources call and do not define.  A condition moves
    from unset or Unknown to True or False, or stays; the stage moves forward
    in the fixed order; the test run identifier moves from empty to
    non-empty. *)
Definition stageOrder (s : string) : option nat :=
  if String.eqb s "" then Some 0%nat
  else if String.eqb s "initialization" then Some 1%nat
  else if String.eqb s "initialized" then Some 2%nat
  else if String.eqb s "created" then Some 3%nat
  else if String.eqb s "started" then Some 4%nat
  else if String.eqb s "stopped" then Some 5%nat
  else if String.eqb s "finished" then Some 6%nat
  else if String.eqb s "error" then Some 7%nat
  else None.

Definition stageForward (old new : string) : bool :=
  match stageOrder old, stageOrder new with
  | Some a, Some b => (a <? b)%nat
  | _, _ => false
  end.

Definition mergeCondition (old new : option ConditionStatus) : option ConditionStatus :=
  match old, new with
  | None, Some s => Some s
  | Some ConditionUnknown, Some ConditionTrue => Some ConditionTrue
  | Some ConditionUnknown, Some ConditionFalse => Some ConditionFalse
  | _, _ => old
  end.

Definition forwardMerge (current proposed : K6Status) : K6Status :=
  {| Stage := if stageForward (Stage current) (Stage proposed)
              then Stage proposed else Stage current;
     TestRunID := if String.eqb (TestRunID current) ""
                  then TestRunID proposed else TestRunID current;
     Conditions := merge (fun o n => mergeCondition o n)
                         (Conditions current) (Conditions proposed) |}.

Definition sameStatus (a b : K6Status) : bool :=
  String.eqb (Stage a) (Stage b) && String.eqb (TestRunID a) (TestRunID b)
  && bool_decide (Conditions a = Conditions b).

Definition fakeSetIfNewer (current proposed : K6Status) : bool * K6Status :=
  let merged := forwardMerge current proposed in
  (negb (sameStatus merged current), merged).

Definition fakeGetEnvVar (env : list EnvVar) (name : string) : string :=
  match List.find (fun e => String.eqb (envName e) name) env with
  | Some e => envValue e
  | None => ""
  end.

Definition allUnknown : gmap string ConditionStatus :=
  <[CloudTestRun := ConditionUnknown]>
  (<[CloudTestRunCreated := ConditionUnknown]>
  (<[CloudTestRunFinalized := ConditionUnknown]>
  (<[CloudTestRunAborted := ConditionUnknown]>
  (<[CloudPLZTestRun := ConditionUnknown]>
  (<[TestRunRunning := ConditionUnknown]> ∅))))).

Definition fakeInitialize (k6 : K6) : K6 :=
  setStatus {| Stage := Stage (Status k6); TestRunID := TestRunID (Status k6);
               Conditions := allUnknown |} k6.

Definition noop (ctx : Context) (log : Logger) (k6 : K6)
    : M Cluster_state (Result * option error) :=
  ret (Result_zero, None).

Definition fakeFinishJobs (ctx : Context) (log : Logger) (k6 : K6)
    : M Cluster_state bool :=
  fun r => (jobsFinished (Client r), r).

(** The bulk deletion with its completion flag: every listed job is deleted,
    and the flag tells whether each deletion went through. *)
Fixpoint deleteAll (items : list Job) : M Cluster_state bool :=
  match items with
  | [] => ret true
  | job :: rest =>
      let* err := call (CallDeleteJob job DeletePropagationBackground)
                       (DeleteJob job DeletePropagationBackground) in
      let* ok := deleteAll rest in
      ret (match err with None => ok | Some _ => false end)
  end.

Definition fakeKillJobs (ctx : Context) (log : Logger) (k6 : K6)
    : M Cluster_state (bool * option error) :=
  let opts := runnerOpts k6 in
  let* jl := call (CallListJobs opts) (ListJobs opts) in
  match jl with
  | inl err => ret (false, Some err)
  | inr items => let* ok := deleteAll items in ret (ok, None)
  end.

Definition fakeLoadToken (name : string) (o : ListOptions) (w : Cluster_state)
    : (string * bool * option error) * Cluster_state :=
  match secret w with
  | Some token => ((token, true, None), w)
  | None => (("", false, None), w)
  end.

Global Instance collaborators : Collaborators Cluster_state := {|
  InitializeJobs := noop;
  RunValidations := noop;
  SetupCloudTest := noop;
  CreateJobs := noop;
  StartJobs := noop;
  StopJobs := noop;
  FinishJobs := fakeFinishJobs;
  KillJobsAllDeleted := fakeKillJobs;
  loadToken := fakeLoadToken;
  getEnvVar := fakeGetEnvVar;
  FinishTestRun := fun c id w => (finalizeErr w, w);
  GetTestRunState := fun c id w => (runState w, w);
  Aborted := fun status => 5 <=? status;
  Initialize := fakeInitialize;
  SetIfNewer := fakeSetIfNewer
|}.

(** *** Runs, workers and clusters to try the operator on *)

Definition ctx0 : Context := {| ReconcileID := "r-1" |}.

Definition conds (l : list (string * ConditionStatus)) : gmap string ConditionStatus :=
  list_to_map l.

Definition run (stage id cleanup : string) (cs : list (string * ConditionStatus)) : K6 :=
  {| Name := "load"; Namespace := "default";
     Spec := {| Parallelism := 2; Cleanup := cleanup; Token := "k6-token";
                RunnerEnv := [] |};
     Status := {| Stage := stage; TestRunID := id; Conditions := conds cs |} |}.

Definition req0 : Request :=
  {| reqNamespacedName := {| nnNamespace := "default"; nnName := "load" |} |}.

Definition runnerLabels : gmap string string := runnerSelector (run "" "" "" []).

Definition worker (n : string) : gmap string string * Service :=
  (runnerLabels, {| svcName := n; svcNamespace := "default"; ClusterIP := "10.0.0.1" |}).

Definition workerJob (n : string) : gmap string string * Job :=
  (runnerLabels, {| jobName := n; jobNamespace := "default" |}).

Definition reply (code : Z) (data : string) : error + Response :=
  inr {| StatusCode := code; Body := inr data |}.

Definition cluster0 (k6 : K6) : Cluster_state :=
  {| objects := [k6]; services := []; jobs := []; endpoints := [];
     getErr := None; listErr := None; patchErr := None; deleteErr := [];
     secret := None; finalizeErr := None; runState := inr 2;
     jobsFinished := false |}.

Definition reconciler (w : Cluster_state) : K6Reconciler Cluster_state :=
  {| Client := w; Log := []; K6CloudClient := None; Logged := []; Calls := [] |}.

Definition clusterWith (k6 : K6) (svcs : list (gmap string string * Service))
    (js : list (gmap string string * Job))
    (eps : list (string * (error + Response))) : Cluster_state :=
  {| objects := [k6]; services := svcs; jobs := js; endpoints := eps;
     getErr := None; listErr := None; patchErr := None; deleteErr := [];
     secret := None; finalizeErr := None; runState := inr 2;
     jobsFinished := false |}.

Definition failing (onGet onList onPatch onFinalize : option error)
    (refused : list string) (w : Cluster_state) : Cluster_state :=
  {| objects := objects w; services := services w; jobs := jobs w;
     endpoints := endpoints w; getErr := onGet; listErr := onList;
     patchErr := onPatch; deleteErr := refused; secret := secret w;
     finalizeErr := onFinalize; runState := runState w;
     jobsFinished := jobsFinished w |}.

Definition withCloud (tok : option string) (state : error + Z) (fin : bool)
    (w : Cluster_state) : Cluster_state :=
  {| objects := objects w; services := services w; jobs := jobs w;
     endpoints := endpoints w; getErr := getErr w; listErr := listErr w;
     patchErr := patchErr w; deleteErr := deleteErr w; secret := tok;
     finalizeErr := finalizeErr w; runState := state;
     jobsFinished := fin |}.

Definition urlOf (n : string) : string := statusURL (snd (worker n)).

Definition startedRun : K6 :=
  run "started" "" "never" [(TestRunRunning, ConditionTrue)].

(** One worker that cannot be reached. *)
Definition unreachable1 : Cluster_state :=
  clusterWith startedRun [worker "w1"] [] [].

(** Two workers: the first answers 500, the second cannot be reached. *)
Definition failing500 : Cluster_state :=
  clusterWith startedRun [worker "w1"; worker "w2"] []
    [(urlOf "w1", reply 500 "")].

(** No worker at all, and a cluster whose listing fails. *)
Definition noWorkers : Cluster_state := clusterWith startedRun [] [] [].

Definition listingFails : Cluster_state :=
  failing None (Some (ErrOther "list timeout")) None None []
    (clusterWith startedRun [worker "w1"] [] [(urlOf "w1", reply 200 "stopped")]).

Definition abortedRun : K6 :=
  run "stopped" "tr-1" "never"
    [(CloudPLZTestRun, ConditionTrue); (CloudTestRunAborted, ConditionTrue);
     (CloudTestRun, ConditionTrue); (CloudTestRunFinalized, ConditionFalse)].

(** Two runner jobs and no worker endpoint left; in the second cluster the
    job j2 refuses deletion. *)
Definition sweepClean : Cluster_state :=
  clusterWith abortedRun [] [workerJob "j1"; workerJob "j2"] [].

Definition sweepRefused : Cluster_state :=
  failing None None None None ["j2"] sweepClean.

Definition jobsListingFails : Cluster_state :=
  failing None (Some (ErrOther "list timeout")) None None [] sweepClean.

(** The reconciler when the reconciliation of [req0] reaches the switch. *)
Definition atSwitch (r : K6Reconciler Cluster_state) : K6Reconciler Cluster_state :=
  match Reconcile_enter ctx0 req0 r with
  | Some (_, rs) => rs
  | None => r
  end.

Definition log0 : Logger := requestLogger [] ctx0 req0.

Definition withClient (c : CloudClient) (r : K6Reconciler Cluster_state)
    : K6Reconciler Cluster_state :=
  {| Client := Client r; Log := Log r; K6CloudClient := Some c;
     Logged := Logged r; Calls := Calls r |}.

(** Status updates: the persisted run is at "created" and "started" is
    proposed; the persisted run is at "started" and a stale "initialized" is
    proposed; the run is gone; the patch is refused. *)
Definition createdRun : K6 := run "created" "" "never" [(TestRunRunning, ConditionTrue)].
Definition staleRun : K6 := run "initialized" "" "never" [(TestRunRunning, ConditionTrue)].

Definition persistedCreated : Cluster_state := clusterWith createdRun [] [] [].
Definition persistedStarted : Cluster_state := clusterWith startedRun [] [] [].
Definition runDeleted : Cluster_state := withObjects [] persistedCreated.
Definition patchRefused : Cluster_state :=
  failing None None (Some (ErrOther "conflict")) None [] persistedCreated.

(** A PLZ run in the stage "started", with and without a test run identifier,
    and a cloud that answers with an error, with "running" (2), with "aborted
    by user" (5). *)
Definition plzRun (id : string) : K6 :=
  run "started" id "never"
    [(CloudPLZTestRun, ConditionTrue); (CloudTestRunAborted, ConditionFalse);
     (CloudTestRun, ConditionTrue); (CloudTestRunFinalized, ConditionFalse);
     (TestRunRunning, ConditionTrue)].

Definition cloudSays (state : error + Z) : Cluster_state :=
  withCloud (Some "tok") state false (clusterWith (plzRun "tr-1") [] [] []).

Definition credentialMissing : Cluster_state :=
  withCloud None (inr 2) false (clusterWith (plzRun "tr-1") [] [] []).

Definition aClient : CloudClient := {| ccToken := "tok"; ccHost := "" |}.

(** Runs in the stage "stopped": a cloud run to finalize, with a cloud that
    refuses and a cloud that accepts, and a run that is not a cloud run. *)
Definition cloudStopped : K6 :=
  run "stopped" "tr-1" "never"
    [(CloudTestRun, ConditionTrue); (CloudTestRunFinalized, ConditionFalse);
     (TestRunRunning, ConditionFalse)].

Definition plainStopped : K6 :=
  run "stopped" "" "never"
    [(CloudTestRun, ConditionFalse); (TestRunRunning, ConditionFalse)].

Definition finalizeRefused : Cluster_state :=
  failing None None None (Some (ErrOther "503")) [] (clusterWith cloudStopped [] [] []).
Definition finalizeAccepted : Cluster_state := clusterWith cloudStopped [] [] [].
Definition nothingToFinalize : Cluster_state := clusterWith plainStopped [] [] [].

(** Runs in the stage "started" whose jobs have finished or not; in the
    second the condition TestRunRunning is already False. *)
Definition notRunning : K6 :=
  run "started" "" "never" [(TestRunRunning, ConditionFalse)].

Definition jobsDone (k6 : K6) : Cluster_state :=
  withCloud None (inr 2) true (clusterWith k6 [] [] []).
Definition jobsActive (k6 : K6) : Cluster_state :=
  withCloud None (inr 2) false (clusterWith k6 [] [] []).

(** Runs in a terminal stage. *)
Definition finishedRun (cleanup : string) : K6 :=
  run "finished" "" cleanup [(TestRunRunning, ConditionFalse)].
Definition terminal (cleanup : string) : Cluster_state :=
  clusterWith (finishedRun cleanup) [] [] [].

(** *** More runs and clusters *)

(** A pod of the run "load" and a pod that belongs to no run. *)
Definition runnerPod : Pod :=
  {| podLabels := runnerLabels; podNamespace := "default" |}.
Definition strayPod : Pod :=
  {| podLabels := <["app" := "k6"]> ∅; podNamespace := "default" |}.

(** A cloud that keeps what it was sent; it refuses deletions. *)
Definition sentRequests : Type := list (HTTPRequest string).

Global Instance cloudAPI : CloudAPI sentRequests string := {|
  NewRequest := fun method url data =>
    if String.eqb url "" then inl (ErrOther "empty url")
    else inr {| reqMethod := method; reqURL := url; reqData := data |};
  Do := fun req sent =>
    ((if String.eqb (reqMethod req) "DELETE"
      then Some (ErrNotFound "load zone") else None, "no such zone"),
     (sent ++ [req])%list);
  errorString := fun e => match e with ErrNotFound what => what | ErrOther msg => msg end
|}.

(** The helpers of [collaborators], with a credential lookup that fails. *)
Definition collaboratorsTokenError : Collaborators Cluster_state := {|
  InitializeJobs := noop;
  RunValidations := noop;
  SetupCloudTest := noop;
  CreateJobs := noop;
  StartJobs := noop;
  StopJobs := noop;
  FinishJobs := fakeFinishJobs;
  KillJobsAllDeleted := fakeKillJobs;
  loadToken := fun name o w => (("", true, Some (ErrOther "forbidden")), w);
  getEnvVar := fakeGetEnvVar;
  FinishTestRun := fun c id w => (finalizeErr w, w);
  GetTestRunState := fun c id w => (runState w, w);
  Aborted := fun status => 5 <=? status;
  Initialize := fakeInitialize;
  SetIfNewer := fakeSetIfNewer
|}.

(** Two workers that both answer that they are running. *)
Definition bothRunning : Cluster_state :=
  clusterWith startedRun [worker "w1"; worker "w2"] []
    [(urlOf "w1", reply 200 "running"); (urlOf "w2", reply 200 "running")].

(** A run that was just created, and runs in the stage "initialization". *)
Definition newRun : K6 := run "" "" "never" [].

(** A run whose stage is none of the stages. *)
Definition bogusRun : K6 := run "Finished" "" "post" [].

(** A finalized cloud run still in the stage "started". *)
Definition finalizedStarted : K6 :=
  run "started" "tr-1" "never"
    [(CloudTestRun, ConditionTrue); (CloudTestRunFinalized, ConditionTrue);
     (TestRunRunning, ConditionTrue)].

(** A forced abort whose worker w1 still answers, with a 500. *)
Definition abortWaiting : Cluster_state :=
  clusterWith abortedRun [worker "w1"] [workerJob "j1"]
    [(urlOf "w1", reply 500 "")].

Definition fetchRefused : Cluster_state :=
  failing (Some (ErrOther "etcd timeout")) None None None [] persistedCreated.

End Fake.

(** * Properties *)

Lemma int32_small (z : Z) : - 2 ^ 31 <= z < 2 ^ 31 -> int32 z = z.
Proof.
  intros Hz. unfold int32.
  rewrite Z.mod_small by lia. lia.
Qed.

Section MonadFacts.

Context {W : Type}.

Lemma call_run {A} (c : Call) (op : W -> A * W) (r : K6Reconciler W) a w :
  op (Client r) = (a, w) -> call c op r = (a, called c w r).
Proof. intros Hop. unfold call. now rewrite Hop. Qed.

Lemma call_fst {A} (c : Call) (op : W -> A * W) (r : K6Reconciler W) :
  call c op r = (fst (op (Client r)), called c (snd (op (Client r))) r).
Proof. unfold call. now destruct (op (Client r)). Qed.

Lemma bind_run {A B} (m : M W A) (k : A -> M W B) r a r' :
  m r = (a, r') -> bind m k r = k a r'.
Proof. intros Hm. unfold bind. now rewrite Hm. Qed.

Lemma bindF_next {R A B} (m : M W (Flow R A)) (k : A -> M W (Flow R B)) r a r' :
  m r = (Next a, r') -> bindF m k r = k a r'.
Proof. intros Hm. unfold bindF, bind. now rewrite Hm. Qed.

Lemma bindF_return {R A B} (m : M W (Flow R A)) (k : A -> M W (Flow R B)) r res r' :
  m r = (Return res, r') -> bindF m k r = (Return res, r').
Proof. intros Hm. unfold bindF, bind. now rewrite Hm. Qed.

End MonadFacts.

Section PollerFacts.

Context {W : Type} `{!Cluster W}.

Lemma isJobRunning_verdict (log : Logger) (service : Service) (r : K6Reconciler W) :
  fst (isJobRunning log service r) = verdict (fst (httpGet (statusURL service) (Client r)))
  /\ Client (snd (isJobRunning log service r)) = snd (httpGet (statusURL service) (Client r)).
Proof.
  unfold isJobRunning, bind. rewrite call_fst.
  destruct (httpGet (statusURL service) (Client r)) as [[e | resp] w]; simpl; [easy |].
  destruct (400 <=? StatusCode resp); simpl; [easy |].
  destruct (Body resp) as [e | data]; simpl; [easy |].
  destruct (jsonUnmarshalStatus data); simpl; easy.
Qed.

(** A payload that was read and decoded: [isJobRunning] answers its [Stopped]
    flag. *)
Lemma isJobRunning_decoded (log : Logger) (service : Service) (r : K6Reconciler W)
    (resp : Response) (w1 : W) (data : string) (status : k6Status) :
  httpGet (statusURL service) (Client r) = (inr resp, w1) ->
  StatusCode resp < 400 ->
  Body resp = inr data ->
  jsonUnmarshalStatus data = inr status ->
  fst (isJobRunning log service r) = Stopped status.
Proof.
  intros Hget Hcode Hbody Hjson.
  destruct (isJobRunning_verdict log service r) as [Hv _]. rewrite Hv, Hget.
  cbn [fst verdict]. rewrite Hbody, Hjson.
  now replace (400 <=? StatusCode resp) with false
    by (symmetry; apply Z.leb_gt; exact Hcode).
Qed.

Lemma verdict_probeFailed (reply : error + Response) :
  probeFailed reply = true -> verdict reply = true.
Proof.
  destruct reply as [e | resp]; simpl; [discriminate |].
  destruct (400 <=? StatusCode resp); simpl; [easy |].
  destruct (Body resp) as [e | data]; [easy |].
  destruct (jsonUnmarshalStatus data); [easy | discriminate].
Qed.

Lemma verdict_noResponse (reply : error + Response) :
  noResponse reply = true -> verdict reply = false.
Proof. destruct reply; simpl; [easy | discriminate]. Qed.

(** The counter of the loop: it moves by one for each reply that makes
    [isJobRunning] answer true, as long as it stays below 2^31. *)
Lemma StoppedJobs_range_count (log : Logger) (items : list Service) :
  forall hostnames count (r : K6Reconciler W),
    0 <= count ->
    count + Z.of_nat (length items) < 2 ^ 31 ->
    snd (fst (StoppedJobs_range log items hostnames count r))
    = count + Z.of_nat (length (filter (fun b => b = true)
                                  (verdict <$> probeReplies items (Client r)))).
Proof.
  induction items as [| service rest IH]; intros hostnames count r Hc Hlen.
  - simpl. lia.
  - cbn [StoppedJobs_range probeReplies]. unfold bind at 1.
    destruct (isJobRunning_verdict log service r) as [Hv Hw].
    destruct (isJobRunning log service r) as [running r1]. simpl in Hv, Hw.
    destruct (httpGet (statusURL service) (Client r)) as [reply w1]. simpl in Hv, Hw.
    subst running w1. cbn [length] in Hlen.
    rewrite fmap_cons. destruct (verdict reply) eqn:Ev.
    + rewrite IH.
      * rewrite int32_small by lia. rewrite filter_cons_True by reflexivity.
        cbn [length]. lia.
      * rewrite int32_small by lia. lia.
      * rewrite int32_small by lia. lia.
    + rewrite IH by lia. rewrite filter_cons_False by (intros Hf; discriminate Hf).
      reflexivity.
Qed.

End PollerFacts.

Section PollerClaims.

Context {W : Type} `{!Cluster W}.

Lemma StoppedJobs_listed (ctx : Context) (log : Logger) (k6 : K6)
    (r : K6Reconciler W) items w1 :
  ListServices (runnerOpts k6) (Client r) = (inr items, w1) ->
  Z.of_nat (length items) < 2 ^ 31 ->
  fst (StoppedJobs ctx log k6 r)
  = negb (existsb verdict (probeReplies items w1)).
Proof.
  intros Hlist Hlen. unfold StoppedJobs.
  unfold bind at 1. unfold Info at 1, emit at 1.
  unfold bind at 1. rewrite call_fst. cbn [Client logged]. rewrite Hlist.
  cbn [fst snd]. unfold bind at 1.
  set (r1 := called _ _ _).
  pose proof (StoppedJobs_range_count (withTestRunId log k6) items [] 0 r1) as Hc.
  destruct (StoppedJobs_range (withTestRunId log k6) items [] 0 r1)
    as [[hostnames count] r2].
  cbn [fst snd] in Hc. rewrite Hc by lia. clear Hc.
  replace (Client r1) with w1 by reflexivity.
  unfold bind, Info, emit. cbn [fst].
  generalize (probeReplies items w1). intros replies.
  induction replies as [| reply replies IH]; [reflexivity |].
  rewrite fmap_cons. cbn [existsb]. destruct (verdict reply).
  - rewrite filter_cons_True by reflexivity. cbn [length orb negb].
    set (n := length (filter (fun b : bool => b = true) (verdict <$> replies))).
    replace (0 <? 0 + Z.of_nat (S n)) with true
      by (symmetry; apply Z.ltb_lt; lia).
    reflexivity.
  - rewrite filter_cons_False by (intros Hf; discriminate Hf). exact IH.
Qed.

(** C1 (as amended).  A probe that is answered with an error-range code, or
    whose body cannot be read or decoded, makes [isJobRunning] answer true; a
    probe that gets no response at all makes it answer false.  Hence, when the
    listing succeeds with fewer than 2^31 endpoints, [StoppedJobs] returns
    false as soon as one probe of the poll is answered and fails in one of
    these ways, and returns true when no probe of the poll gets a response. *)
Theorem StoppedJobs_probe_policy (ctx : Context) (log : Logger) (k6 : K6)
    (r : K6Reconciler W) (items : list Service) (w1 : W) :
  ListServices (runnerOpts k6) (Client r) = (inr items, w1) ->
  Z.of_nat (length items) < 2 ^ 31 ->
  (forall (lg : Logger) (service : Service) (r' : K6Reconciler W),
      (probeFailed (fst (httpGet (statusURL service) (Client r'))) = true ->
       fst (isJobRunning lg service r') = true)
      /\ (noResponse (fst (httpGet (statusURL service) (Client r'))) = true ->
          fst (isJobRunning lg service r') = false))
  /\ (existsb probeFailed (probeReplies items w1) = true ->
      fst (StoppedJobs ctx log k6 r) = false)
  /\ (forallb noResponse (probeReplies items w1) = true ->
      fst (StoppedJobs ctx log k6 r) = true).
Proof.
  intros Hlist Hlen. split; [| split].
  - intros lg service r'.
    destruct (isJobRunning_verdict lg service r') as [Hv _]. rewrite Hv.
    split; [apply verdict_probeFailed | apply verdict_noResponse].
  - intros Hex. rewrite (StoppedJobs_listed ctx log k6 r items w1 Hlist Hlen).
    apply existsb_exists in Hex. destruct Hex as [reply [Hin Hf]].
    replace (existsb verdict (probeReplies items w1)) with true; [reflexivity |].
    symmetry. apply existsb_exists. exists reply.
    split; [exact Hin | now apply verdict_probeFailed].
  - intros Hall. rewrite (StoppedJobs_listed ctx log k6 r items w1 Hlist Hlen).
    rewrite forallb_forall in Hall.
    replace (existsb verdict (probeReplies items w1)) with false; [reflexivity |].
    symmetry. apply not_true_is_false. intros Hex.
    apply existsb_exists in Hex. destruct Hex as [reply [Hin Hv]].
    rewrite (verdict_noResponse reply (Hall reply Hin)) in Hv. discriminate Hv.
Qed.

(** C8.  When the listing succeeds and matches no worker endpoint,
    [StoppedJobs] returns true, and no probe is made. *)
Theorem StoppedJobs_no_endpoints (ctx : Context) (log : Logger) (k6 : K6)
    (r : K6Reconciler W) (w1 : W) :
  ListServices (runnerOpts k6) (Client r) = (inr [], w1) ->
  fst (StoppedJobs ctx log k6 r) = true
  /\ Calls (snd (StoppedJobs ctx log k6 r))
     = (Calls r ++ [CallListServices (runnerOpts k6)])%list.
Proof.
  intros Hlist. unfold StoppedJobs, bind, Info, emit.
  rewrite call_fst. cbn [Client logged]. rewrite Hlist. simpl. split; reflexivity.
Qed.

(** C10.  When the listing of the worker endpoints fails, [StoppedJobs]
    returns false, and no probe is made. *)
Theorem StoppedJobs_list_error (ctx : Context) (log : Logger) (k6 : K6)
    (r : K6Reconciler W) (e : error) (w1 : W) :
  ListServices (runnerOpts k6) (Client r) = (inl e, w1) ->
  fst (StoppedJobs ctx log k6 r) = false
  /\ Calls (snd (StoppedJobs ctx log k6 r))
     = (Calls r ++ [CallListServices (runnerOpts k6)])%list.
Proof.
  intros Hlist. unfold StoppedJobs, bind, Info, Error, emit.
  rewrite call_fst. cbn [Client logged]. rewrite Hlist. simpl. split; reflexivity.
Qed.

End PollerClaims.

Section PollerRuns.

Import Fake.

Lemma StoppedJobs_probe_policy_witness :
  fst (StoppedJobs ctx0 [] startedRun (reconciler failing500)) = false
  /\ fst (StoppedJobs ctx0 [] startedRun (reconciler unreachable1)) = true.
Proof.
  split.
  - refine (proj1 (proj2 (StoppedJobs_probe_policy ctx0 [] startedRun
             (reconciler failing500) [snd (worker "w1"); snd (worker "w2")]
             failing500 _ _)) _); vm_compute; reflexivity.
  - refine (proj2 (proj2 (StoppedJobs_probe_policy ctx0 [] startedRun
             (reconciler unreachable1) [snd (worker "w1")]
             unreachable1 _ _)) _); vm_compute; reflexivity.
Defined.

(** C1 (as stated) fails: the only worker of the run cannot be reached, its
    probe gets no response, and the probe is not counted as still running:
    [StoppedJobs] reports that all workers have stopped. *)
Lemma StoppedJobs_unreachable_counts_as_stopped :
  noResponse (fst (httpGet (urlOf "w1") unreachable1)) = true
  /\ fst (isJobRunning [] (snd (worker "w1")) (reconciler unreachable1)) = false
  /\ fst (StoppedJobs ctx0 [] startedRun (reconciler unreachable1)) = true.
Proof. vm_compute. repeat split. Qed.

Lemma StoppedJobs_no_endpoints_witness :
  fst (StoppedJobs ctx0 [] startedRun (reconciler noWorkers)) = true.
Proof.
  refine (proj1 (StoppedJobs_no_endpoints ctx0 [] startedRun
            (reconciler noWorkers) noWorkers _)).
  vm_compute; reflexivity.
Defined.

Lemma StoppedJobs_list_error_witness :
  fst (StoppedJobs ctx0 [] startedRun (reconciler listingFails)) = false.
Proof.
  refine (proj1 (StoppedJobs_list_error ctx0 [] startedRun
            (reconciler listingFails) (ErrOther "list timeout") listingFails _)).
  vm_compute; reflexivity.
Defined.

End PollerRuns.

Section ControllerFacts.

Context {W : Type} `{!Cluster W} `{!Collaborators W}.

Lemma length_zero_empty (s : string) : (String.length s =? 0)%nat = true <-> s = "".
Proof.
  destruct s; simpl; split; intros Hs; try reflexivity; discriminate Hs.
Qed.

(** The whole of [UpdateStatus], by the answers of the cluster. *)
Lemma UpdateStatus_run (ctx : Context) (k6 : K6) (log : Logger) (r : K6Reconciler W) :
  let nn := {| nnNamespace := Namespace k6; nnName := Name k6 |} in
  let r1 := called (CallGet nn) (snd (Get nn (Client r))) r in
  UpdateStatus ctx k6 log r =
  match fst (Get nn (Client r)) with
  | inl err =>
      if IsNotFound err then
        (false, None, k6,
         logged (infoLine log "Request deleted. No status to update." []) r1)
      else
        (false, Some err, k6,
         logged (errorLine log (Some err) "Could not fetch request" []) r1)
  | inr fetched =>
      let merged := setStatus (snd (SetIfNewer (Status fetched) (Status k6))) fetched in
      if fst (SetIfNewer (Status fetched) (Status k6)) then
        let r2 := called (CallStatusPatch merged fetched)
                         (snd (StatusPatch merged fetched (Client r1))) r1 in
        match fst (StatusPatch merged fetched (Client r1)) with
        | inl err =>
            (false, Some err, merged,
             logged (errorLine log (Some err)
                       "Could not update status of custom resource" []) r2)
        | inr k6' => (true, None, k6', r2)
        end
      else (false, None, merged, r1)
  end.
Proof.
  intros nn r1. unfold UpdateStatus. fold nn. unfold bind at 1.
  rewrite call_fst. fold r1.
  destruct (fst (Get nn (Client r))) as [err | fetched].
  - destruct (IsNotFound err); reflexivity.
  - destruct (SetIfNewer (Status fetched) (Status k6)) as [isNewer merged].
    cbn [fst snd]. destruct isNewer; cbn [negb]; [| reflexivity].
    unfold bind at 1. rewrite call_fst.
    destruct (fst (StatusPatch (setStatus merged fetched) fetched (Client r1)));
      reflexivity.
Qed.

(** C3 (as amended).  [UpdateStatus] first re-fetches the persisted object.
    If it is not found, the answer is "no update happened" with no error and
    nothing is written.  If the merge of the proposed status into the fetched
    object reports no change, the answer is "no update happened" with no error
    and nothing is written.  Otherwise one patch is issued, of the merged
    object relative to the object as it was fetched, and the answer is "update
    happened" when the patch succeeds; when the patch fails the answer is "no
    update happened" together with the error. *)
Theorem UpdateStatus_refetch_merge_patch (ctx : Context) (k6 : K6) (log : Logger)
    (r : K6Reconciler W) :
  let nn := {| nnNamespace := Namespace k6; nnName := Name k6 |} in
  let out := UpdateStatus ctx k6 log r in
  (forall e w1,
      Get nn (Client r) = (inl e, w1) -> IsNotFound e = true ->
      fst out = (false, None, k6)
      /\ Calls (snd out) = (Calls r ++ [CallGet nn])%list
      /\ Client (snd out) = w1)
  /\ (forall fetched w1 merged,
      Get nn (Client r) = (inr fetched, w1) ->
      SetIfNewer (Status fetched) (Status k6) = (false, merged) ->
      fst out = (false, None, setStatus merged fetched)
      /\ Calls (snd out) = (Calls r ++ [CallGet nn])%list
      /\ Client (snd out) = w1)
  /\ (forall fetched w1 merged,
      Get nn (Client r) = (inr fetched, w1) ->
      SetIfNewer (Status fetched) (Status k6) = (true, merged) ->
      Calls (snd out)
      = (Calls r ++ [CallGet nn;
                     CallStatusPatch (setStatus merged fetched) fetched])%list
      /\ Client (snd out) = snd (StatusPatch (setStatus merged fetched) fetched w1)
      /\ match fst (StatusPatch (setStatus merged fetched) fetched w1) with
         | inr k6' => fst out = (true, None, k6')
         | inl e => fst out = (false, Some e, setStatus merged fetched)
         end).
Proof.
  intros nn out. unfold out. rewrite UpdateStatus_run. fold nn.
  split; [| split].
  - intros e w1 Hget Hnf. rewrite Hget. cbn [fst snd]. rewrite Hnf.
    repeat split.
  - intros fetched w1 merged Hget Hmerge. rewrite Hget. cbn [fst snd].
    rewrite Hmerge. repeat split.
  - intros fetched w1 merged Hget Hmerge. rewrite Hget. cbn [fst snd].
    rewrite Hmerge. cbn [fst snd called Client].
    destruct (StatusPatch (setStatus merged fetched) fetched w1) as [[e | k6'] w2];
      cbn [fst snd]; unfold called, logged; cbn [Calls Client];
      rewrite <- app_assoc; repeat split.
Qed.

(** The whole of [ShouldAbort], by the answer of the cloud. *)
Lemma ShouldAbort_run (ctx : Context) (k6 : K6) (log : Logger) (r : K6Reconciler W) :
  let id := TestRunID (Status k6) in
  let q := GetTestRunState (K6CloudClient r) id (Client r) in
  let r1 := called (CallGetTestRunState id) (snd q) r in
  ShouldAbort ctx k6 log r =
  if (String.length id =? 0)%nat then
    (false,
     logged (errorLine log (Some (ErrOther "empty test run ID"))
               "Trying to get state of test run with empty test run ID" []) r)
  else
    match fst q with
    | inl err =>
        (false,
         logged (errorLine log (Some err) "Failed to get test run state." []) r1)
    | inr status =>
        (Aborted status,
         logged (infoLine log "Received test run status %v" [AInt status]) r1)
    end.
Proof.
  intros id q r1. unfold ShouldAbort. fold id.
  destruct ((String.length id =? 0)%nat); [reflexivity |].
  unfold bind at 1. unfold getCloudClient. unfold bind at 1.
  rewrite call_fst. fold q. fold r1.
  destruct (fst q); reflexivity.
Qed.

(** C4.  [ShouldAbort] answers false, and logs, when the run has no remote
    test-run identifier (no query is made) and when the query of the remote
    state fails; it answers true only when a remote state was retrieved and
    that state reports the aborted flag. *)
Theorem ShouldAbort_fail_closed (ctx : Context) (k6 : K6) (log : Logger)
    (r : K6Reconciler W) :
  let id := TestRunID (Status k6) in
  let out := ShouldAbort ctx k6 log r in
  (id = "" ->
   fst out = false
   /\ Calls (snd out) = Calls r
   /\ Logged (snd out)
      = (Logged r
         ++ [errorLine log (Some (ErrOther "empty test run ID"))
               "Trying to get state of test run with empty test run ID" []])%list)
  /\ (forall e w1,
      id <> "" ->
      GetTestRunState (K6CloudClient r) id (Client r) = (inl e, w1) ->
      fst out = false
      /\ Logged (snd out)
         = (Logged r
            ++ [errorLine log (Some e) "Failed to get test run state." []])%list)
  /\ (fst out = true ->
      id <> ""
      /\ exists status w1,
          GetTestRunState (K6CloudClient r) id (Client r) = (inr status, w1)
          /\ Aborted status = true).
Proof.
  intros id out. subst out. rewrite ShouldAbort_run. subst id.
  set (id := TestRunID (Status k6)).
  destruct ((String.length id =? 0)%nat) eqn:Elen.
  - apply length_zero_empty in Elen. split; [| split].
    + intros _. repeat split.
    + intros e w1 Hid. contradiction.
    + cbn. intros Hf. discriminate Hf.
  - assert (Hid : id <> "").
    { intros Hid. apply length_zero_empty in Hid. congruence. }
    split; [| split].
    + intros Hid'. contradiction.
    + intros e w1 _ Hq. rewrite Hq. repeat split.
    + destruct (GetTestRunState (K6CloudClient r) id (Client r)) as [[e | status] w1].
      * cbn. intros Hf. discriminate Hf.
      * cbn. intros Hf. split; [exact Hid |].
        exists status, w1. split; [reflexivity | exact Hf].
Qed.

Lemma KillJobs_range_calls (log : Logger) (items : list Job) :
  forall r : K6Reconciler W,
    Calls (snd (KillJobs_range log items r))
    = (Calls r ++ map (fun job => CallDeleteJob job DeletePropagationBackground) items)%list.
Proof.
  induction items as [| job rest IH]; intros r.
  - simpl. now rewrite app_nil_r.
  - cbn [KillJobs_range map]. unfold bind at 1. rewrite call_fst.
    unfold bind at 1.
    destruct (fst (DeleteJob job DeletePropagationBackground (Client r))) as [e |];
      cbn; rewrite IH; cbn [Calls called logged]; now rewrite <- app_assoc.
Qed.

(** The whole of [KillJobs], by the answer of the listing. *)
Lemma KillJobs_run (ctx : Context) (log : Logger) (k6 : K6) (r : K6Reconciler W) :
  let lg := withTestRunId log k6 in
  let l := ListJobs (runnerOpts k6) (Client r) in
  let r1 := called (CallListJobs (runnerOpts k6)) (snd l)
              (logged (infoLine lg "Checking if all runner pods are finished" []) r) in
  KillJobs ctx log k6 r =
  match fst l with
  | inl err =>
      (Some err,
       logged (errorLine lg (Some err) "Could not list jobs" []) r1)
  | inr items => (None, snd (KillJobs_range lg items r1))
  end.
Proof.
  intros lg l r1. unfold KillJobs. fold lg. unfold bind at 1.
  unfold Info at 1, emit at 1. unfold bind at 1. rewrite call_fst.
  cbn [Client logged]. fold l. fold r1.
  destruct (fst l) as [err | items]; [reflexivity |].
  unfold bind. destruct (KillJobs_range lg items r1) as [[] r2]. reflexivity.
Qed.

(** The forced-abort statement of the stopped stage, once the workers have
    confirmed they stopped, by the answer of the bulk deletion. *)
Lemma Reconcile_stopped_abort_run (ctx : Context) (log : Logger) (k6 : K6)
    (r r1 : K6Reconciler W) :
  IsTrue k6 CloudPLZTestRun && IsTrue k6 CloudTestRunAborted = true ->
  StoppedJobs ctx log k6 r = (true, r1) ->
  Reconcile_stopped_abort ctx log k6 r =
  let r2 := snd (KillJobsAllDeleted ctx log k6 r1) in
  match snd (fst (KillJobsAllDeleted ctx log k6 r1)) with
  | Some e => (Return ({| Requeue := false; RequeueAfter := Second |}, Some e), r2)
  | None =>
      if fst (fst (KillJobsAllDeleted ctx log k6 r1)) then
        let k6m := UpdateCondition CloudTestRunAborted ConditionTrue k6 in
        match snd (fst (fst (UpdateStatus ctx k6m log r2))) with
        | Some e => (Return (Result_zero, Some e), snd (UpdateStatus ctx k6m log r2))
        | None => (Next (snd (fst (UpdateStatus ctx k6m log r2))),
                   snd (UpdateStatus ctx k6m log r2))
        end
      else (Next k6, r2)
  end.
Proof.
  intros Hforced Hstopped. unfold Reconcile_stopped_abort. rewrite Hforced.
  rewrite (bind_run _ _ _ _ _ Hstopped). unfold bind at 1.
  destruct (KillJobsAllDeleted ctx log k6 r1) as [[allDeleted [e |]] r2];
    cbn [fst snd]; [reflexivity |].
  destruct allDeleted; [| reflexivity].
  unfold bind.
  destruct (UpdateStatus ctx (UpdateCondition CloudTestRunAborted ConditionTrue k6) log r2)
    as [[[uh [e |]] k6'] r3]; reflexivity.
Qed.

(** C2 (as amended).  [KillJobs] returns the error of the listing when the
    listing of the job handles fails, and deletes nothing; otherwise it asks
    for the deletion of every listed handle, in order and with background
    propagation, whatever the earlier deletions answered, and returns no
    error.  Its caller in the stopped stage, once the workers have confirmed
    they stopped, returns the error of the bulk deletion with a requeue after
    one second when there is one, leaves the run as it is when the bulk
    deletion reports that not all handles were deleted, and otherwise
    proposes CloudTestRunAborted = True through the status update. *)
Theorem KillJobs_sweep_and_caller (ctx : Context) (log : Logger) (k6 : K6)
    (r : K6Reconciler W) :
  (forall e w1,
      ListJobs (runnerOpts k6) (Client r) = (inl e, w1) ->
      fst (KillJobs ctx log k6 r) = Some e
      /\ Calls (snd (KillJobs ctx log k6 r))
         = (Calls r ++ [CallListJobs (runnerOpts k6)])%list)
  /\ (forall items w1,
      ListJobs (runnerOpts k6) (Client r) = (inr items, w1) ->
      fst (KillJobs ctx log k6 r) = None
      /\ Calls (snd (KillJobs ctx log k6 r))
         = (Calls r ++ CallListJobs (runnerOpts k6)
              :: map (fun job => CallDeleteJob job DeletePropagationBackground) items)%list)
  /\ (forall r1 allDeleted err r2,
      IsTrue k6 CloudPLZTestRun && IsTrue k6 CloudTestRunAborted = true ->
      StoppedJobs ctx log k6 r = (true, r1) ->
      KillJobsAllDeleted ctx log k6 r1 = ((allDeleted, err), r2) ->
      match err, allDeleted with
      | Some e, _ =>
          Reconcile_stopped_abort ctx log k6 r
          = (Return ({| Requeue := false; RequeueAfter := Second |}, Some e), r2)
      | None, false => Reconcile_stopped_abort ctx log k6 r = (Next k6, r2)
      | None, true =>
          snd (Reconcile_stopped_abort ctx log k6 r)
          = snd (UpdateStatus ctx (UpdateCondition CloudTestRunAborted ConditionTrue k6)
                   log r2)
      end).
Proof.
  split; [| split].
  - intros e w1 Hlist. rewrite KillJobs_run. rewrite Hlist. split; reflexivity.
  - intros items w1 Hlist. rewrite KillJobs_run. rewrite Hlist. cbn [fst snd].
    split; [reflexivity |]. rewrite KillJobs_range_calls.
    cbn [Calls called logged]. now rewrite <- app_assoc.
  - intros r1 allDeleted err r2 Hforced Hstopped Hkill.
    rewrite (Reconcile_stopped_abort_run ctx log k6 r r1 Hforced Hstopped).
    rewrite Hkill. cbn [fst snd].
    destruct err as [e |]; [reflexivity |].
    destruct allDeleted; [| reflexivity].
    cbn zeta.
    destruct (UpdateStatus ctx (UpdateCondition CloudTestRunAborted ConditionTrue k6) log r2)
      as [[[uh [e |]] k6'] r3]; reflexivity.
Qed.

(** ** Reconcile, up to the switch and after it *)

Lemma Reconcile_switch_reached (ctx : Context) (req : Request)
    (r : K6Reconciler W) (k6 : K6) (rs : K6Reconciler W) :
  Reconcile_enter ctx req r = Some (k6, rs) ->
  Reconcile ctx req r
  = Reconcile_leave (requestLogger (Log r) ctx req)
      (Reconcile_switch ctx (requestLogger (Log r) ctx req) k6 rs).
Proof.
  unfold Reconcile_enter, Reconcile, body. unfold bind at 1 2.
  unfold getLog. cbn [fst snd]. unfold bind at 1.
  destruct (call (CallGet (reqNamespacedName req)) (Get (reqNamespacedName req)) r)
    as [[err | fetched] r1]; [discriminate |].
  unfold bindF at 1. unfold bind at 1.
  destruct (Reconcile_bootstrap ctx (requestLogger (Log r) ctx req) fetched r1)
    as [[[] | res] rb]; [| discriminate].
  intros Henter. injection Henter as Hk Hrs. subst k6 rs.
  unfold bind at 1. unfold Info at 1, emit at 1. cbn [snd Info emit].
  unfold bindF, bind.
  destruct (Reconcile_switch ctx (requestLogger (Log r) ctx req) fetched _)
    as [[[] | res] r']; reflexivity.
Qed.

(** The whole of [createClient]. *)
Lemma createClient_run (ctx : Context) (k6 : K6) (log : Logger) (r : K6Reconciler W) :
  let opts := {| LabelSelector := ∅; optNamespace := Namespace k6 |} in
  let t := loadToken (Token (Spec k6)) opts (Client r) in
  let r1 := called (CallLoadToken (Token (Spec k6)) opts) (snd t) r in
  createClient ctx k6 log r =
  match K6CloudClient r with
  | Some _ => ((true, None), r)
  | None =>
      match snd (fst t) with
      | Some err =>
          ((false, Some err),
           logged (errorLine log (Some err) "A problem while getting token." []) r1)
      | None =>
          if snd (fst (fst t)) then
            ((true, None),
             snd (setCloudClient
                    (NewClient log (fst (fst (fst t)))
                       (getEnvVar (RunnerEnv (Spec k6)) "K6_CLOUD_HOST")) r1))
          else ((false, None), r1)
      end
  end.
Proof.
  intros opts t r1. unfold createClient. unfold bind at 1. unfold getCloudClient.
  destruct (K6CloudClient r) as [c |]; [reflexivity |].
  fold opts. unfold bind at 1. rewrite call_fst. fold t. fold r1.
  destruct (fst t) as [[token tokenReady] [err |]]; cbn [fst snd]; [reflexivity |].
  destruct tokenReady; reflexivity.
Qed.

Lemma Reconcile_bootstrap_ready (ctx : Context) (log : Logger) (k6 : K6)
    (r : K6Reconciler W) (c : CloudClient) :
  K6CloudClient r = Some c ->
  Reconcile_bootstrap ctx log k6 r = (Next tt, r).
Proof.
  intros Hc. unfold Reconcile_bootstrap.
  destruct (IsTrue k6 CloudPLZTestRun); [| reflexivity].
  unfold bind. rewrite createClient_run. rewrite Hc. reflexivity.
Qed.

Lemma Reconcile_enter_inv (ctx : Context) (req : Request)
    (r : K6Reconciler W) (k6 : K6) (rs : K6Reconciler W) :
  Reconcile_enter ctx req r = Some (k6, rs) ->
  fst (Get (reqNamespacedName req) (Client r)) = inr k6
  /\ statusPatches (Calls rs) = statusPatches (Calls r)
  /\ Log rs = Log r.
Proof.
  unfold Reconcile_enter. rewrite call_fst.
  destruct (fst (Get (reqNamespacedName req) (Client r))) as [err | fetched];
    [discriminate |].
  set (r1 := called _ _ r).
  unfold Reconcile_bootstrap.
  destruct (IsTrue fetched CloudPLZTestRun).
  - unfold bind at 1. rewrite createClient_run.
    replace (K6CloudClient r1) with (K6CloudClient r) by reflexivity.
    destruct (K6CloudClient r) as [c |].
    + cbn. intros Henter. injection Henter as Hk Hrs. subst k6 rs.
      cbn. unfold statusPatches. rewrite List.filter_app. cbn. now rewrite app_nil_r.
    + destruct (loadToken (Token (Spec fetched))
                  {| LabelSelector := ∅; optNamespace := Namespace fetched |}
                  (Client r1)) as [[[token tokenReady] [err |]] w2];
        cbn [fst snd]; [discriminate |].
      destruct tokenReady; cbn; [| discriminate].
      intros Henter. injection Henter as Hk Hrs. subst k6 rs.
      cbn. unfold statusPatches. rewrite !List.filter_app. cbn. now rewrite !app_nil_r.
  - cbn. intros Henter. injection Henter as Hk Hrs. subst k6 rs.
    cbn. unfold statusPatches. rewrite List.filter_app. cbn. now rewrite app_nil_r.
Qed.

Lemma Reconcile_terminal_run (ctx : Context) (log : Logger) (k6 : K6)
    (r : K6Reconciler W) :
  Reconcile_terminal ctx log k6 r =
  if String.eqb (Cleanup (Spec k6)) "post" then
    (Return (Result_zero, None),
     called (CallDeleteK6 k6) (snd (DeleteK6 k6 (Client r)))
       (logged (infoLine log "Cleaning up all resources" []) r))
  else (Return (Result_zero, None), r).
Proof.
  unfold Reconcile_terminal. unfold bind at 1.
  destruct (String.eqb (Cleanup (Spec k6)) "post"); [| reflexivity].
  unfold bind at 1. unfold Info at 1, emit at 1. unfold bind at 1.
  rewrite call_fst. reflexivity.
Qed.

(** C9.  A run reconciled in the stage "finished" or "error": when the
    cleanup policy is "post" the deletion of the run object itself is
    requested, and that is the only call of the stage; otherwise the stage
    makes no call at all and leaves the reconciler as it found it.  In both
    cases no status is written during the reconciliation, no requeue is
    requested and no error is returned. *)
Theorem Reconcile_terminal_stage (ctx : Context) (req : Request)
    (r : K6Reconciler W) (k6 : K6) (rs : K6Reconciler W) :
  Reconcile_enter ctx req r = Some (k6, rs) ->
  Stage (Status k6) = "finished" \/ Stage (Status k6) = "error" ->
  let out := Reconcile ctx req r in
  fst out = (Result_zero, None)
  /\ statusPatches (Calls (snd out)) = statusPatches (Calls r)
  /\ (Cleanup (Spec k6) = "post" ->
      Calls (snd out) = (Calls rs ++ [CallDeleteK6 k6])%list
      /\ Client (snd out) = snd (DeleteK6 k6 (Client rs)))
  /\ (Cleanup (Spec k6) <> "post" -> snd out = rs).
Proof.
  intros Henter Hstage out. subst out.
  rewrite (Reconcile_switch_reached ctx req r k6 rs Henter).
  destruct (Reconcile_enter_inv ctx req r k6 rs Henter) as (_ & Hpatches & _).
  assert (Hsw : Reconcile_switch ctx (requestLogger (Log r) ctx req) k6
                = Reconcile_terminal ctx (requestLogger (Log r) ctx req) k6).
  { unfold Reconcile_switch. destruct Hstage as [Hs | Hs]; rewrite Hs; reflexivity. }
  rewrite Hsw, Reconcile_terminal_run.
  destruct (String.eqb (Cleanup (Spec k6)) "post") eqn:Epost.
  - cbn [Reconcile_leave fst snd]. split; [reflexivity |]. split; [| split].
    + cbn [Calls called logged]. unfold statusPatches in *.
      rewrite List.filter_app. cbn. rewrite app_nil_r. exact Hpatches.
    + intros _. split; reflexivity.
    + intros Hne. apply String.eqb_eq in Epost. contradiction.
  - cbn [Reconcile_leave fst snd]. split; [reflexivity |]. split; [| split].
    + exact Hpatches.
    + intros Hpost. apply String.eqb_neq in Epost. contradiction.
    + intros _. reflexivity.
Qed.

(** ** The stage "started" *)

Lemma ShouldAbort_no_patch (ctx : Context) (k6 : K6) (log : Logger)
    (r : K6Reconciler W) :
  statusPatches (Calls (snd (ShouldAbort ctx k6 log r))) = statusPatches (Calls r).
Proof.
  rewrite ShouldAbort_run. cbv zeta.
  destruct ((String.length (TestRunID (Status k6)) =? 0)%nat); [reflexivity |].
  destruct (fst (GetTestRunState (K6CloudClient r) (TestRunID (Status k6)) (Client r)));
    cbn; unfold statusPatches; rewrite List.filter_app; cbn; now rewrite app_nil_r.
Qed.

(** The case "started" past its two guards, by the answer of the worker poll. *)
Lemma Reconcile_started_run (ctx : Context) (log : Logger) (k6 : K6)
    (r : K6Reconciler W) :
  IsTrue k6 CloudTestRun && IsTrue k6 CloudTestRunFinalized = false ->
  IsTrue k6 CloudTestRunAborted = false ->
  let r2 := snd (FinishJobs ctx log k6 r) in
  Reconcile_started ctx log k6 r =
  if fst (FinishJobs ctx log k6 r) then
    let r3 := logged (infoLine log "All runner pods are finished" []) r2 in
    if IsTrue k6 TestRunRunning then
      let us := UpdateStatus ctx
                  (setStage "stopped" (UpdateCondition TestRunRunning ConditionFalse k6))
                  log
                  (logged (infoLine log "Changing stage of K6 status to stopped" []) r3) in
      (Return (Result_zero, snd (fst (fst us))), snd us)
    else (Return (Result_zero, None), r3)
  else if IsTrue k6 CloudPLZTestRun && IsFalse k6 CloudTestRunAborted then
    let sa := ShouldAbort ctx k6 log r2 in
    if fst sa then
      let sj := StopJobs ctx log k6
                  (logged (infoLine log
                     "Received an abort signal from the k6 Cloud: stopping the test." [])
                     (snd sa)) in
      (Return (fst sj), snd sj)
    else (Return ({| Requeue := false; RequeueAfter := Second * 15 |}, None), snd sa)
  else (Return ({| Requeue := false; RequeueAfter := Second * 15 |}, None), r2).
Proof.
  intros Hfluke Haborted r2. unfold Reconcile_started.
  rewrite Hfluke, Haborted. unfold bind at 1. subst r2.
  destruct (FinishJobs ctx log k6 r) as [finished r2]. cbn [fst snd].
  destruct finished; cbn [negb].
  - unfold bindF, bind, Info, emit.
    destruct (IsTrue k6 TestRunRunning); [| reflexivity].
    destruct (UpdateStatus ctx _ log _) as [[[uh [e |]] k6'] r4]; reflexivity.
  - destruct (IsTrue k6 CloudPLZTestRun && IsFalse k6 CloudTestRunAborted);
      [| reflexivity].
    unfold bindF, bind, Info, emit.
    destruct (ShouldAbort ctx k6 log r2) as [abort r3]. cbn [fst snd].
    destruct abort; [| reflexivity].
    destruct (StopJobs ctx log k6 _) as [res r5]. reflexivity.
Qed.

(** C6 (as amended).  A run reconciled in the stage "started" whose two
    guards let it through (it is not a finalized cloud run and it is not
    aborted).  When the worker poll reports that all workers have stopped and
    TestRunRunning is True, the reconciler proposes, through the status
    update, the run with TestRunRunning set to False and the stage "stopped",
    and returns no requeue with the error of that update, if any.  When the
    poll reports all stopped and TestRunRunning is not True, nothing is
    proposed and nothing is called.  When the poll reports that not all
    workers have stopped and no abort is triggered (the run is not one to
    check for an abort, or the abort check answers false), the result is a
    requeue after 15 seconds with no error and no status is written. *)
Theorem Reconcile_started_stage (ctx : Context) (req : Request)
    (r : K6Reconciler W) (k6 : K6) (rs : K6Reconciler W) :
  Reconcile_enter ctx req r = Some (k6, rs) ->
  Stage (Status k6) = "started" ->
  IsTrue k6 CloudTestRun && IsTrue k6 CloudTestRunFinalized = false ->
  IsTrue k6 CloudTestRunAborted = false ->
  let log := requestLogger (Log r) ctx req in
  let out := Reconcile ctx req r in
  let poll := FinishJobs ctx log k6 rs in
  let proposal := setStage "stopped" (UpdateCondition TestRunRunning ConditionFalse k6) in
  (fst poll = true -> IsTrue k6 TestRunRunning = true ->
   IsFalse proposal TestRunRunning = true
   /\ Stage (Status proposal) = "stopped"
   /\ let us := UpdateStatus ctx proposal log
                  (logged (infoLine log "Changing stage of K6 status to stopped" [])
                     (logged (infoLine log "All runner pods are finished" [])
                        (snd poll))) in
      out = ((Result_zero, snd (fst (fst us))), snd us))
  /\ (fst poll = true -> IsTrue k6 TestRunRunning = false ->
      out = ((Result_zero, None),
             logged (infoLine log "All runner pods are finished" []) (snd poll)))
  /\ (fst poll = false ->
      IsTrue k6 CloudPLZTestRun && IsFalse k6 CloudTestRunAborted = false
      \/ fst (ShouldAbort ctx k6 log (snd poll)) = false ->
      fst out = ({| Requeue := false; RequeueAfter := Second * 15 |}, None)
      /\ statusPatches (Calls (snd out)) = statusPatches (Calls (snd poll))).
Proof.
  intros Henter Hstage Hfluke Haborted log out poll proposal. subst out.
  rewrite (Reconcile_switch_reached ctx req r k6 rs Henter). fold log.
  assert (Hsw : Reconcile_switch ctx log k6 = Reconcile_started ctx log k6).
  { unfold Reconcile_switch. rewrite Hstage. reflexivity. }
  rewrite Hsw, (Reconcile_started_run ctx log k6 rs Hfluke Haborted).
  fold poll. cbv zeta. split; [| split].
  - intros Hpoll Hrunning. rewrite Hpoll, Hrunning. split; [| split].
    + unfold IsFalse, condition, proposal. cbn.
      rewrite lookup_insert_eq. now apply bool_decide_eq_true.
    + reflexivity.
    + reflexivity.
  - intros Hpoll Hrunning. rewrite Hpoll, Hrunning. reflexivity.
  - intros Hpoll Hnoabort. rewrite Hpoll.
    destruct (IsTrue k6 CloudPLZTestRun && IsFalse k6 CloudTestRunAborted).
    + destruct Hnoabort as [Hf | Hsa]; [discriminate Hf |].
      rewrite Hsa. cbn. split; [reflexivity | apply ShouldAbort_no_patch].
    + cbn. split; reflexivity.
Qed.

(** ** The stage "stopped" *)

Lemma Reconcile_stopped_finalize_run (ctx : Context) (log : Logger) (k6 : K6)
    (r : K6Reconciler W) :
  let id := TestRunID (Status k6) in
  let f := FinishTestRun (K6CloudClient r) id (Client r) in
  let r1 := called (CallFinishTestRun id) (snd f) r in
  Reconcile_stopped_finalize ctx log k6 r =
  if IsTrue k6 CloudTestRun && IsFalse k6 CloudTestRunFinalized then
    match fst f with
    | Some e =>
        (Return (Result_zero, None),
         logged (errorLine log (Some e)
                   "Failed to finalize the test run with cloud output" []) r1)
    | None =>
        (Next (UpdateCondition CloudTestRunFinalized ConditionTrue k6),
         logged (infoLine log "Cloud test run %s was finalized succesfully" [AStr id]) r1)
    end
  else (Next k6, r).
Proof.
  intros id f r1. unfold Reconcile_stopped_finalize.
  destruct (IsTrue k6 CloudTestRun && IsFalse k6 CloudTestRunFinalized);
    [| reflexivity].
  unfold bind at 1. unfold getCloudClient. unfold bind at 1. rewrite call_fst.
  fold id f r1. destruct (fst f); reflexivity.
Qed.

Lemma Reconcile_stopped_finish_run (ctx : Context) (log : Logger) (k6 : K6)
    (r : K6Reconciler W) :
  let us := UpdateStatus ctx (setStage "finished" k6) log
              (logged (infoLine log "Changing stage of K6 status to finished" []) r) in
  Reconcile_stopped_finish ctx log k6 r =
  (Return (match snd (fst (fst us)) with
           | Some e => (Result_zero, Some e)
           | None => ({| Requeue := false; RequeueAfter := Second |}, None)
           end), snd us).
Proof.
  intros us. unfold Reconcile_stopped_finish, bind, Info, emit. fold us.
  destruct us as [[[uh [e |]] k6'] r2]; reflexivity.
Qed.

(** C5 (as amended).  A run reconciled in the stage "stopped" whose
    forced-abort statement lets it through with the run [k6a].  When a
    finalization is due (a cloud run with CloudTestRunFinalized False) and the
    remote finalize fails, the failure is logged, no error is returned, no
    requeue is requested, and nothing is written after the finalize call: the
    stage is not advanced and CloudTestRunFinalized stays False.  When it
    succeeds, the run with CloudTestRunFinalized set to True and the stage
    "finished" is proposed through the status update; when no finalization is
    due, the run with the stage "finished" is.  In these two cases the result
    is a requeue after one second, unless the status update fails, and then it
    is the error of the update. *)
Theorem Reconcile_stopped_stage (ctx : Context) (req : Request)
    (r : K6Reconciler W) (k6 : K6) (rs : K6Reconciler W)
    (k6a : K6) (ra : K6Reconciler W) :
  Reconcile_enter ctx req r = Some (k6, rs) ->
  Stage (Status k6) = "stopped" ->
  let log := requestLogger (Log r) ctx req in
  Reconcile_stopped_abort ctx log k6 rs = (Next k6a, ra) ->
  let out := Reconcile ctx req r in
  let due := IsTrue k6a CloudTestRun && IsFalse k6a CloudTestRunFinalized in
  let id := TestRunID (Status k6a) in
  let f := FinishTestRun (K6CloudClient ra) id (Client ra) in
  let r1 := called (CallFinishTestRun id) (snd f) ra in
  let advance (k6x : K6) (rx : K6Reconciler W) :=
    let us := UpdateStatus ctx (setStage "finished" k6x) log
                (logged (infoLine log "Changing stage of K6 status to finished" []) rx) in
    (match snd (fst (fst us)) with
     | Some e => (Result_zero, Some e)
     | None => ({| Requeue := false; RequeueAfter := Second |}, None)
     end, snd us) in
  (forall e, due = true -> fst f = Some e ->
      out = ((Result_zero, None),
             logged (errorLine log (Some e)
                       "Failed to finalize the test run with cloud output" []) r1)
      /\ Calls (snd out) = (Calls ra ++ [CallFinishTestRun id])%list)
  /\ (due = true -> fst f = None ->
      let finalized := UpdateCondition CloudTestRunFinalized ConditionTrue k6a in
      IsTrue finalized CloudTestRunFinalized = true
      /\ out = advance finalized
                 (logged (infoLine log "Cloud test run %s was finalized succesfully"
                            [AStr id]) r1))
  /\ (due = false -> out = advance k6a ra).
Proof.
  intros Henter Hstage log Habort out due id f r1 advance. subst out.
  rewrite (Reconcile_switch_reached ctx req r k6 rs Henter). fold log.
  assert (Hsw : Reconcile_switch ctx log k6 = Reconcile_stopped ctx log k6).
  { unfold Reconcile_switch. rewrite Hstage. reflexivity. }
  rewrite Hsw. unfold Reconcile_stopped.
  rewrite (bindF_next _ _ _ _ _ Habort).
  pose proof (Reconcile_stopped_finalize_run ctx log k6a ra) as Hfin.
  cbv zeta in Hfin. fold id f r1 due in Hfin.
  split; [| split].
  - intros e Hdue Hf. rewrite Hdue, Hf in Hfin.
    rewrite (bindF_return _ _ _ _ _ Hfin). split; reflexivity.
  - intros Hdue Hf. rewrite Hdue, Hf in Hfin.
    rewrite (bindF_next _ _ _ _ _ Hfin). split.
    + unfold IsTrue, condition. cbn.
      rewrite lookup_insert_eq. now apply bool_decide_eq_true.
    + rewrite Reconcile_stopped_finish_run. reflexivity.
  - intros Hdue. rewrite Hdue in Hfin.
    rewrite (bindF_next _ _ _ _ _ Hfin).
    rewrite Reconcile_stopped_finish_run. reflexivity.
Qed.

(** ** The bootstrap of the cloud client *)

Lemma keeps_ret {A} (c : CloudClient) (a : A) : keepsClient (W:=W) c (ret a).
Proof. intros r Hr. exact Hr. Qed.

Lemma keeps_bind {A B} (c : CloudClient) (m : M W A) (k : A -> M W B) :
  keepsClient c m -> (forall a, keepsClient c (k a)) -> keepsClient c (bind m k).
Proof.
  intros Hm Hk r Hr. unfold bind. specialize (Hm r Hr).
  destruct (m r) as [a r1]. exact (Hk a r1 Hm).
Qed.

Lemma keeps_bindF {R A B} (c : CloudClient) (m : M W (Flow R A))
    (k : A -> M W (Flow R B)) :
  keepsClient c m -> (forall a, keepsClient c (k a)) -> keepsClient c (bindF m k).
Proof.
  intros Hm Hk. unfold bindF. apply keeps_bind; [exact Hm |].
  intros [a | res]; [apply Hk | apply keeps_ret].
Qed.

Lemma keeps_call {A} (c : CloudClient) (cl : Call) (op : W -> A * W) :
  keepsClient c (call cl op).
Proof. intros r Hr. unfold call. destruct (op (Client r)). exact Hr. Qed.

Lemma keeps_emit (c : CloudClient) (e : LogEntry) : keepsClient (W:=W) c (emit e).
Proof. intros r Hr. exact Hr. Qed.

Lemma keeps_getCloudClient (c : CloudClient) : keepsClient (W:=W) c getCloudClient.
Proof. intros r Hr. exact Hr. Qed.

Lemma keeps_getLog (c : CloudClient) : keepsClient (W:=W) c getLog.
Proof. intros r Hr. exact Hr. Qed.

Ltac keeps_step :=
  match goal with
  | |- keepsClient _ (bind _ _) => apply keeps_bind; [| intros ?]
  | |- keepsClient _ (bindF _ _) => apply keeps_bindF; [| intros ?]
  | |- keepsClient _ (ret _) => apply keeps_ret
  | |- keepsClient _ (next _) => apply keeps_ret
  | |- keepsClient _ (return_ _) => apply keeps_ret
  | |- keepsClient _ (call _ _) => apply keeps_call
  | |- keepsClient _ (Info _ _ _) => apply keeps_emit
  | |- keepsClient _ (Error _ _ _ _) => apply keeps_emit
  | |- keepsClient _ getCloudClient => apply keeps_getCloudClient
  | |- keepsClient _ getLog => apply keeps_getLog
  | |- keepsClient _ (if ?b then _ else _) => destruct b
  | |- keepsClient _ (match ?x with _ => _ end) => destruct x
  | |- keepsClient _ (let (_, _) := ?x in _) => destruct x
  end.

Ltac keeps := repeat (cbv zeta; keeps_step).

Lemma keeps_isJobRunning (c : CloudClient) (log : Logger) (service : Service) :
  keepsClient c (isJobRunning log service).
Proof. unfold isJobRunning. keeps. Qed.

Lemma keeps_StoppedJobs_range (c : CloudClient) (log : Logger) (items : list Service) :
  forall hostnames count, keepsClient c (StoppedJobs_range log items hostnames count).
Proof.
  induction items as [| service rest IH]; intros hostnames count; cbn [StoppedJobs_range].
  - apply keeps_ret.
  - apply keeps_bind; [apply keeps_isJobRunning |]. intros running. apply IH.
Qed.

Lemma keeps_StoppedJobs (c : CloudClient) (ctx : Context) (log : Logger) (k6 : K6) :
  keepsClient c (StoppedJobs ctx log k6).
Proof.
  unfold StoppedJobs. keeps. apply keeps_StoppedJobs_range.
Qed.

Lemma keeps_UpdateStatus (c : CloudClient) (ctx : Context) (k6 : K6) (log : Logger) :
  keepsClient c (UpdateStatus ctx k6 log).
Proof. unfold UpdateStatus. keeps. Qed.

Lemma keeps_ShouldAbort (c : CloudClient) (ctx : Context) (k6 : K6) (log : Logger) :
  keepsClient c (ShouldAbort ctx k6 log).
Proof. unfold ShouldAbort. keeps. Qed.

Lemma keeps_createClient (c : CloudClient) (ctx : Context) (k6 : K6) (log : Logger) :
  keepsClient c (createClient ctx k6 log).
Proof. intros r Hr. rewrite createClient_run. rewrite Hr. exact Hr. Qed.

(** Once the reconciler holds a cloud client, a reconciliation leaves it
    holding the same client, as long as the helpers it calls do. *)
Lemma keeps_Reconcile (c : CloudClient) (ctx : Context) (req : Request) :
  helpersKeepClient c -> keepsClient c (Reconcile ctx req).
Proof.
  intros (HInit & HVal & HSetup & HCreate & HStart & HStop & HFinish & HKill).
  assert (Hus : forall k6 log, keepsClient c (UpdateStatus ctx k6 log))
    by (intros; apply keeps_UpdateStatus).
  assert (Hunset : forall log k6, keepsClient c (Reconcile_unset ctx log k6)).
  { intros log k6. unfold Reconcile_unset. keeps; auto. }
  assert (Hinit : forall log k6, keepsClient c (Reconcile_initialization ctx log k6)).
  { intros log k6. unfold Reconcile_initialization. keeps; auto. }
  assert (Hstarted : forall log k6, keepsClient c (Reconcile_started ctx log k6)).
  { intros log k6. unfold Reconcile_started. keeps; auto using keeps_ShouldAbort. }
  assert (Hstopped : forall log k6, keepsClient c (Reconcile_stopped ctx log k6)).
  { intros log k6.
    unfold Reconcile_stopped, Reconcile_stopped_abort, Reconcile_stopped_finalize,
      Reconcile_stopped_finish.
    keeps; auto using keeps_StoppedJobs. }
  assert (Hterminal : forall log k6, keepsClient c (Reconcile_terminal ctx log k6)).
  { intros log k6. unfold Reconcile_terminal. keeps. }
  unfold Reconcile, body. apply keeps_bind.
  - apply keeps_bind; [apply keeps_getLog |]. intros rlog. cbv zeta.
    apply keeps_bind; [apply keeps_call |]. intros [err | k6]; [keeps |].
    apply keeps_bindF.
    { unfold Reconcile_bootstrap. destruct (IsTrue k6 CloudPLZTestRun); [| apply keeps_ret].
      apply keeps_bind; [apply keeps_createClient |]. intros [found [err |]]; keeps. }
    intros _. apply keeps_bind; [apply keeps_emit |]. intros _.
    apply keeps_bindF; [| intros _; keeps].
    unfold Reconcile_switch. keeps; auto.
  - intros [a | res]; apply keeps_ret.
Qed.

(** C7.  A reconciler that holds a cloud client keeps it: [createClient]
    answers "found" without any call, in particular without looking the
    credential up, and leaves the reconciler as it is, and a whole
    reconciliation ends with the same client (the helpers it calls keeping
    it).  A reconciler that holds none looks the credential up; while the
    credential is not there, [createClient] answers "not found" with no error
    and builds nothing, and the reconciliation of a PLZ run returns a requeue
    after one second with no error, having made no call but the fetch and the
    lookup: the stage is not changed.  Once the credential is there, the
    client is built from the token and the host of the runner environment and
    stored. *)
Theorem createClient_once (ctx : Context) (req : Request) (k6 : K6) (log : Logger)
    (r : K6Reconciler W) :
  let opts := {| LabelSelector := ∅; optNamespace := Namespace k6 |} in
  let lookup := CallLoadToken (Token (Spec k6)) opts in
  (forall c,
      K6CloudClient r = Some c ->
      createClient ctx k6 log r = ((true, None), r)
      /\ (helpersKeepClient c -> K6CloudClient (snd (Reconcile ctx req r)) = Some c))
  /\ (forall tok w1,
      K6CloudClient r = None ->
      loadToken (Token (Spec k6)) opts (Client r) = ((tok, false, None), w1) ->
      createClient ctx k6 log r = ((false, None), called lookup w1 r))
  /\ (forall tok w1,
      K6CloudClient r = None ->
      loadToken (Token (Spec k6)) opts (Client r) = ((tok, true, None), w1) ->
      fst (createClient ctx k6 log r) = (true, None)
      /\ K6CloudClient (snd (createClient ctx k6 log r))
         = Some (NewClient log tok (getEnvVar (RunnerEnv (Spec k6)) "K6_CLOUD_HOST")))
  /\ (forall w1 tok w2,
      K6CloudClient r = None ->
      Get (reqNamespacedName req) (Client r) = (inr k6, w1) ->
      IsTrue k6 CloudPLZTestRun = true ->
      loadToken (Token (Spec k6)) opts w1 = ((tok, false, None), w2) ->
      fst (Reconcile ctx req r) = ({| Requeue := false; RequeueAfter := Second |}, None)
      /\ Calls (snd (Reconcile ctx req r))
         = (Calls r ++ [CallGet (reqNamespacedName req); lookup])%list
      /\ Client (snd (Reconcile ctx req r)) = w2
      /\ K6CloudClient (snd (Reconcile ctx req r)) = None).
Proof.
  intros opts lookup. split; [| split; [| split]].
  - intros c Hc. split.
    + rewrite createClient_run. now rewrite Hc.
    + intros Hkeep. exact (keeps_Reconcile c ctx req Hkeep r Hc).
  - intros tok w1 Hnone Htok. rewrite createClient_run. fold opts.
    rewrite Hnone, Htok. reflexivity.
  - intros tok w1 Hnone Htok. rewrite createClient_run. fold opts.
    rewrite Hnone, Htok. split; reflexivity.
  - intros w1 tok w2 Hnone Hget Hplz Htok.
    assert (Hrun : Reconcile ctx req r
                   = (({| Requeue := false; RequeueAfter := Second |}, None),
                      logged (infoLine (requestLogger (Log r) ctx req)
                                "Token `%s` is not found yet." [AStr (Token (Spec k6))])
                        (called lookup w2
                           (called (CallGet (reqNamespacedName req)) w1 r)))).
    { unfold Reconcile, body. unfold bind at 1 2. unfold getLog.
      unfold bind at 1. rewrite (call_run _ _ _ _ _ Hget).
      unfold bindF at 1. unfold bind at 1. unfold Reconcile_bootstrap at 1.
      rewrite Hplz. unfold bind at 1. rewrite createClient_run. fold opts.
      cbn [Client called K6CloudClient]. rewrite Hnone, Htok. reflexivity. }
    rewrite Hrun. cbn [fst snd Calls Client K6CloudClient called logged].
    rewrite <- app_assoc. repeat split. exact Hnone.
Qed.

End ControllerFacts.

Section ControllerRuns.

Import Fake.

(** C3 (as stated) fails: the persisted run is fetched, the proposed stage
    "started" is newer than the persisted "created", the patch is issued and
    refused, and the answer is "no update happened" together with the error. *)
Lemma UpdateStatus_refused_patch_is_no_update :
  fst (Get (k6Name startedRun) patchRefused) = inr createdRun
  /\ fst (SetIfNewer (Status createdRun) (Status startedRun)) = true
  /\ fst (fst (UpdateStatus ctx0 startedRun [] (reconciler patchRefused)))
     = (false, Some (ErrOther "conflict")).
Proof. vm_compute. repeat split. Qed.

Lemma UpdateStatus_refetch_merge_patch_witness :
  fst (UpdateStatus ctx0 startedRun [] (reconciler runDeleted))
    = (false, None, startedRun)
  /\ (fst (UpdateStatus ctx0 staleRun [] (reconciler persistedStarted))
        = (false, None, startedRun)
      /\ Calls (snd (UpdateStatus ctx0 staleRun [] (reconciler persistedStarted)))
         = [CallGet (k6Name staleRun)])
  /\ fst (UpdateStatus ctx0 startedRun [] (reconciler persistedCreated))
     = (true, None, startedRun).
Proof.
  split; [| split].
  - destruct (UpdateStatus_refetch_merge_patch ctx0 startedRun []
                (reconciler runDeleted)) as (Hgone & _ & _).
    exact (proj1 (Hgone (ErrNotFound "load") runDeleted eq_refl eq_refl)).
  - destruct (UpdateStatus_refetch_merge_patch ctx0 staleRun []
                (reconciler persistedStarted)) as (_ & Hstale & _).
    destruct (Hstale startedRun persistedStarted (Status startedRun))
      as (Hres & Hcalls & _); [vm_compute; reflexivity | vm_compute; reflexivity |].
    split; [exact Hres | exact Hcalls].
  - destruct (UpdateStatus_refetch_merge_patch ctx0 startedRun []
                (reconciler persistedCreated)) as (_ & _ & Hnew).
    destruct (Hnew createdRun persistedCreated (Status startedRun))
      as (_ & _ & Hres); [vm_compute; reflexivity | vm_compute; reflexivity |].
    exact Hres.
Defined.

Lemma ShouldAbort_fail_closed_witness :
  fst (ShouldAbort ctx0 (plzRun "") [] (reconciler (cloudSays (inr 5)))) = false
  /\ fst (ShouldAbort ctx0 (plzRun "tr-1") []
            (reconciler (cloudSays (inl (ErrOther "500"))))) = false
  /\ Aborted (W:=Cluster_state) 5 = true.
Proof.
  split; [| split].
  - destruct (ShouldAbort_fail_closed ctx0 (plzRun "") []
                (reconciler (cloudSays (inr 5)))) as (Hempty & _ & _).
    exact (proj1 (Hempty eq_refl)).
  - destruct (ShouldAbort_fail_closed ctx0 (plzRun "tr-1") []
                (reconciler (cloudSays (inl (ErrOther "500"))))) as (_ & Herr & _).
    refine (proj1 (Herr (ErrOther "500") (cloudSays (inl (ErrOther "500"))) _ eq_refl)).
    intros Hid. discriminate Hid.
  - destruct (ShouldAbort_fail_closed ctx0 (plzRun "tr-1") []
                (reconciler (cloudSays (inr 5)))) as (_ & _ & Htrue).
    destruct (Htrue eq_refl) as (_ & status & w1 & Hq & Haborted).
    injection Hq as Hs _. subst status. exact Haborted.
Defined.

(** C2 (as stated) fails: of the two runner jobs, j2 refuses its deletion;
    [KillJobs] returns no error and reports nothing else, and j2 is still
    there. *)
Lemma KillJobs_swallows_a_refused_deletion :
  fst (DeleteJob (snd (workerJob "j2")) DeletePropagationBackground sweepRefused)
    = Some (ErrOther "delete refused")
  /\ fst (KillJobs ctx0 [] abortedRun (reconciler sweepRefused)) = None
  /\ jobs (Client (snd (KillJobs ctx0 [] abortedRun (reconciler sweepRefused))))
     = [workerJob "j2"].
Proof. vm_compute. repeat split. Qed.

Lemma KillJobs_sweep_and_caller_witness :
  fst (KillJobs ctx0 [] abortedRun (reconciler jobsListingFails))
    = Some (ErrOther "list timeout")
  /\ fst (KillJobs ctx0 [] abortedRun (reconciler sweepClean)) = None
  /\ fst (Reconcile_stopped_abort ctx0 [] abortedRun (reconciler sweepRefused))
     = Next abortedRun.
Proof.
  split; [| split].
  - destruct (KillJobs_sweep_and_caller ctx0 [] abortedRun
                (reconciler jobsListingFails)) as (Hlist & _ & _).
    exact (proj1 (Hlist (ErrOther "list timeout") jobsListingFails eq_refl)).
  - destruct (KillJobs_sweep_and_caller ctx0 [] abortedRun
                (reconciler sweepClean)) as (_ & Hsweep & _).
    refine (proj1 (Hsweep [snd (workerJob "j1"); snd (workerJob "j2")] sweepClean _)).
    vm_compute; reflexivity.
  - destruct (KillJobs_sweep_and_caller ctx0 [] abortedRun
                (reconciler sweepRefused)) as (_ & _ & Hcaller).
    pose proof (Hcaller
                  (snd (StoppedJobs ctx0 [] abortedRun (reconciler sweepRefused)))
                  false None
                  (snd (KillJobsAllDeleted ctx0 [] abortedRun
                          (snd (StoppedJobs ctx0 [] abortedRun (reconciler sweepRefused)))))
                  ltac:(vm_compute; reflexivity)
                  ltac:(vm_compute; reflexivity)
                  ltac:(vm_compute; reflexivity)) as Hrun.
    cbv beta iota in Hrun. rewrite Hrun. reflexivity.
Defined.

(** C5 (as stated) fails: a cloud run in the stage "stopped" whose remote
    finalize is refused.  The reconciliation returns no requeue at all, not a
    requeue after one second, and the persisted stage is still "stopped". *)
Lemma Reconcile_stopped_finalize_refused_stays :
  fst (FinishTestRun None "tr-1" finalizeRefused) = Some (ErrOther "503")
  /\ fst (Reconcile ctx0 req0 (reconciler finalizeRefused)) = (Result_zero, None)
  /\ RequeueAfter (fst (fst (Reconcile ctx0 req0 (reconciler finalizeRefused)))) <> Second
  /\ Stage <$> (Status <$> objects (Client (snd (Reconcile ctx0 req0
                                               (reconciler finalizeRefused)))))
     = ["stopped"].
Proof. vm_compute. repeat split. intros Hf. discriminate Hf. Qed.

Lemma Reconcile_stopped_stage_witness :
  (fst (Reconcile ctx0 req0 (reconciler finalizeRefused)) = (Result_zero, None)
   /\ Calls (snd (Reconcile ctx0 req0 (reconciler finalizeRefused)))
      = [CallGet (reqNamespacedName req0); CallFinishTestRun "tr-1"])
  /\ (fst (Reconcile ctx0 req0 (reconciler finalizeAccepted))
        = ({| Requeue := false; RequeueAfter := Second |}, None)
      /\ Stage <$> (Status <$> objects (Client (snd (Reconcile ctx0 req0
                                                   (reconciler finalizeAccepted)))))
         = ["finished"])
  /\ fst (Reconcile ctx0 req0 (reconciler nothingToFinalize))
     = ({| Requeue := false; RequeueAfter := Second |}, None).
Proof.
  split; [| split].
  - assert (Henter : Reconcile_enter ctx0 req0 (reconciler finalizeRefused)
                     = Some (cloudStopped, atSwitch (reconciler finalizeRefused)))
      by (vm_compute; reflexivity).
    assert (Hthrough : Reconcile_stopped_abort ctx0 log0 cloudStopped
                         (atSwitch (reconciler finalizeRefused))
                       = (Next cloudStopped, atSwitch (reconciler finalizeRefused)))
      by (vm_compute; reflexivity).
    destruct (Reconcile_stopped_stage ctx0 req0 (reconciler finalizeRefused)
                cloudStopped (atSwitch (reconciler finalizeRefused))
                cloudStopped (atSwitch (reconciler finalizeRefused))
                Henter eq_refl Hthrough) as (Hfail & _ & _).
    destruct (Hfail (ErrOther "503") eq_refl eq_refl) as (Hout & Hcalls).
    split; [now rewrite Hout | rewrite Hcalls; vm_compute; reflexivity].
  - assert (Henter : Reconcile_enter ctx0 req0 (reconciler finalizeAccepted)
                     = Some (cloudStopped, atSwitch (reconciler finalizeAccepted)))
      by (vm_compute; reflexivity).
    assert (Hthrough : Reconcile_stopped_abort ctx0 log0 cloudStopped
                         (atSwitch (reconciler finalizeAccepted))
                       = (Next cloudStopped, atSwitch (reconciler finalizeAccepted)))
      by (vm_compute; reflexivity).
    destruct (Reconcile_stopped_stage ctx0 req0 (reconciler finalizeAccepted)
                cloudStopped (atSwitch (reconciler finalizeAccepted))
                cloudStopped (atSwitch (reconciler finalizeAccepted))
                Henter eq_refl Hthrough) as (_ & Hok & _).
    destruct (Hok eq_refl eq_refl) as (_ & Hout).
    rewrite Hout. vm_compute. split; reflexivity.
  - assert (Henter : Reconcile_enter ctx0 req0 (reconciler nothingToFinalize)
                     = Some (plainStopped, atSwitch (reconciler nothingToFinalize)))
      by (vm_compute; reflexivity).
    assert (Hthrough : Reconcile_stopped_abort ctx0 log0 plainStopped
                         (atSwitch (reconciler nothingToFinalize))
                       = (Next plainStopped, atSwitch (reconciler nothingToFinalize)))
      by (vm_compute; reflexivity).
    destruct (Reconcile_stopped_stage ctx0 req0 (reconciler nothingToFinalize)
                plainStopped (atSwitch (reconciler nothingToFinalize))
                plainStopped (atSwitch (reconciler nothingToFinalize))
                Henter eq_refl Hthrough) as (_ & _ & Hnone).
    rewrite (Hnone eq_refl). vm_compute. reflexivity.
Defined.

(** C6 (as stated) fails: a run in the stage "started" whose condition
    TestRunRunning is already False.  The worker poll reports that all workers
    have stopped, and the reconciliation proposes nothing: no status is
    written and the persisted stage is still "started". *)
Lemma Reconcile_started_not_running_stays :
  fst (FinishJobs ctx0 log0 notRunning (atSwitch (reconciler (jobsDone notRunning))))
    = true
  /\ fst (Reconcile ctx0 req0 (reconciler (jobsDone notRunning))) = (Result_zero, None)
  /\ Calls (snd (Reconcile ctx0 req0 (reconciler (jobsDone notRunning))))
     = [CallGet (reqNamespacedName req0)]
  /\ Stage <$> (Status <$> objects (Client (snd (Reconcile ctx0 req0
                                               (reconciler (jobsDone notRunning))))))
     = ["started"].
Proof. vm_compute. repeat split. Qed.

Lemma Reconcile_started_stage_witness :
  (fst (Reconcile ctx0 req0 (reconciler (jobsDone startedRun))) = (Result_zero, None)
   /\ Stage <$> (Status <$> objects (Client (snd (Reconcile ctx0 req0
                                                (reconciler (jobsDone startedRun))))))
      = ["stopped"])
  /\ fst (Reconcile ctx0 req0 (reconciler (jobsDone notRunning))) = (Result_zero, None)
  /\ fst (Reconcile ctx0 req0 (reconciler (jobsActive startedRun)))
     = ({| Requeue := false; RequeueAfter := Second * 15 |}, None).
Proof.
  split; [| split].
  - assert (Henter : Reconcile_enter ctx0 req0 (reconciler (jobsDone startedRun))
                     = Some (startedRun, atSwitch (reconciler (jobsDone startedRun))))
      by (vm_compute; reflexivity).
    destruct (Reconcile_started_stage ctx0 req0 (reconciler (jobsDone startedRun))
                startedRun (atSwitch (reconciler (jobsDone startedRun)))
                Henter eq_refl eq_refl eq_refl)
      as (Hdone & _ & _).
    destruct (Hdone eq_refl eq_refl) as (_ & _ & Hout).
    rewrite Hout. vm_compute. split; reflexivity.
  - assert (Henter : Reconcile_enter ctx0 req0 (reconciler (jobsDone notRunning))
                     = Some (notRunning, atSwitch (reconciler (jobsDone notRunning))))
      by (vm_compute; reflexivity).
    destruct (Reconcile_started_stage ctx0 req0 (reconciler (jobsDone notRunning))
                notRunning (atSwitch (reconciler (jobsDone notRunning)))
                Henter eq_refl eq_refl eq_refl)
      as (_ & Hidle & _).
    now rewrite (Hidle eq_refl eq_refl).
  - assert (Henter : Reconcile_enter ctx0 req0 (reconciler (jobsActive startedRun))
                     = Some (startedRun, atSwitch (reconciler (jobsActive startedRun))))
      by (vm_compute; reflexivity).
    destruct (Reconcile_started_stage ctx0 req0 (reconciler (jobsActive startedRun))
                startedRun (atSwitch (reconciler (jobsActive startedRun)))
                Henter eq_refl eq_refl eq_refl)
      as (_ & _ & Hwait).
    exact (proj1 (Hwait eq_refl (or_introl eq_refl))).
Defined.

Lemma Reconcile_terminal_stage_witness :
  (fst (Reconcile ctx0 req0 (reconciler (terminal "post"))) = (Result_zero, None)
   /\ objects (Client (snd (Reconcile ctx0 req0 (reconciler (terminal "post"))))) = [])
  /\ (fst (Reconcile ctx0 req0 (reconciler (terminal "never"))) = (Result_zero, None)
      /\ Calls (snd (Reconcile ctx0 req0 (reconciler (terminal "never"))))
         = [CallGet (reqNamespacedName req0)]).
Proof.
  split.
  - assert (Henter : Reconcile_enter ctx0 req0 (reconciler (terminal "post"))
                     = Some (finishedRun "post", atSwitch (reconciler (terminal "post"))))
      by (vm_compute; reflexivity).
    destruct (Reconcile_terminal_stage ctx0 req0 (reconciler (terminal "post"))
                (finishedRun "post") (atSwitch (reconciler (terminal "post")))
                Henter (or_introl eq_refl))
      as (Hres & _ & Hpost & _).
    split; [exact Hres |].
    rewrite (proj2 (Hpost eq_refl)). vm_compute. reflexivity.
  - assert (Henter : Reconcile_enter ctx0 req0 (reconciler (terminal "never"))
                     = Some (finishedRun "never", atSwitch (reconciler (terminal "never"))))
      by (vm_compute; reflexivity).
    destruct (Reconcile_terminal_stage ctx0 req0 (reconciler (terminal "never"))
                (finishedRun "never") (atSwitch (reconciler (terminal "never")))
                Henter (or_introl eq_refl))
      as (Hres & _ & _ & Hnever).
    split; [exact Hres |].
    rewrite Hnever; [vm_compute; reflexivity |].
    intros Hpost. discriminate Hpost.
Defined.

Lemma keeps_deleteAll (c : CloudClient) (items : list Job) :
  keepsClient c (deleteAll items).
Proof.
  induction items as [| job rest IH]; cbn [deleteAll].
  - apply keeps_ret.
  - apply keeps_bind; [apply keeps_call |]. intros err.
    apply keeps_bind; [exact IH |]. intros ok. apply keeps_ret.
Qed.

Lemma fake_helpersKeepClient (c : CloudClient) :
  helpersKeepClient (W:=Cluster_state) c.
Proof.
  repeat split; intros ctx log k6; try (intros r Hr; exact Hr).
  cbn. unfold fakeKillJobs. apply keeps_bind; [apply keeps_call |].
  intros [err | items]; [apply keeps_ret |].
  apply keeps_bind; [apply keeps_deleteAll |]. intros ok. apply keeps_ret.
Qed.

Lemma createClient_once_witness :
  (createClient ctx0 (plzRun "tr-1") log0 (withClient aClient (reconciler credentialMissing))
     = ((true, None), withClient aClient (reconciler credentialMissing))
   /\ K6CloudClient (snd (Reconcile ctx0 req0
                            (withClient aClient (reconciler credentialMissing))))
      = Some aClient)
  /\ fst (createClient ctx0 (plzRun "tr-1") log0 (reconciler credentialMissing))
     = (false, None)
  /\ K6CloudClient (snd (createClient ctx0 (plzRun "tr-1") log0
                           (reconciler (cloudSays (inr 2)))))
     = Some aClient
  /\ (fst (Reconcile ctx0 req0 (reconciler credentialMissing))
        = ({| Requeue := false; RequeueAfter := Second |}, None)
      /\ Stage <$> (Status <$> objects (Client (snd (Reconcile ctx0 req0
                                                   (reconciler credentialMissing)))))
         = ["started"]).
Proof.
  split; [| split; [| split]].
  - destruct (createClient_once ctx0 req0 (plzRun "tr-1") log0
                (withClient aClient (reconciler credentialMissing)))
      as (Hheld & _ & _ & _).
    destruct (Hheld aClient eq_refl) as (Hsame & Hkept).
    split; [exact Hsame | exact (Hkept (fake_helpersKeepClient aClient))].
  - destruct (createClient_once ctx0 req0 (plzRun "tr-1") log0
                (reconciler credentialMissing)) as (_ & Hmissing & _ & _).
    now rewrite (Hmissing "" credentialMissing eq_refl eq_refl).
  - destruct (createClient_once ctx0 req0 (plzRun "tr-1") log0
                (reconciler (cloudSays (inr 2)))) as (_ & _ & Hfound & _).
    exact (proj2 (Hfound "tok" (cloudSays (inr 2)) eq_refl eq_refl)).
  - destruct (createClient_once ctx0 req0 (plzRun "tr-1") log0
                (reconciler credentialMissing)) as (_ & _ & _ & Hwait).
    assert (Hget : Get (reqNamespacedName req0) (Client (reconciler credentialMissing))
                   = (inr (plzRun "tr-1"), credentialMissing))
      by (vm_compute; reflexivity).
    destruct (Hwait credentialMissing "" credentialMissing eq_refl Hget eq_refl eq_refl)
      as (Hres & _ & Hcluster & _).
    split; [exact Hres |]. rewrite Hcluster. vm_compute. reflexivity.
Defined.

End ControllerRuns.

(** * More of the code *)

Section RouterFacts.

(** X1.  The watch on pods lets an event through exactly when its map
    function yields a request: a pod without the label k6_cr is dropped and
    yields nothing, a pod with the label yields one request, named by the
    value of the label (even an empty one) in the namespace of the pod. *)
Theorem podRequests_filter (pod : Pod) :
  podRequests pod
  = if podPredicate pod
    then [{| reqNamespacedName :=
               {| nnNamespace := podNamespace pod;
                  nnName := default "" (podLabels pod !! k6CrLabelName) |} |}]
    else [].
Proof.
  unfold podRequests, podPredicate.
  destruct (podLabels pod !! k6CrLabelName); reflexivity.
Qed.

(** X2.  A pod that carries the labels by which the poller selects the
    workers of a run, in the namespace of that run, is routed to the request
    of that run and to no other. *)
Theorem podRequests_of_runner (k6 : K6) (pod : Pod) :
  LabelSelector (runnerOpts k6) ⊆ podLabels pod ->
  podNamespace pod = optNamespace (runnerOpts k6) ->
  podPredicate pod = true
  /\ podRequests pod
     = [{| reqNamespacedName :=
             {| nnNamespace := Namespace k6; nnName := Name k6 |} |}].
Proof.
  intros Hlabels Hns. cbn in Hlabels, Hns.
  assert (Hcr : podLabels pod !! k6CrLabelName = Some (Name k6)).
  { apply (lookup_weaken (runnerSelector k6)); [| exact Hlabels].
    unfold runnerSelector, k6CrLabelName.
    rewrite lookup_insert_ne by discriminate. apply lookup_insert_eq. }
  unfold podPredicate, podRequests. rewrite Hcr, Hns. split; reflexivity.
Qed.

Lemma podRequests_of_runner_witness :
  podRequests Fake.runnerPod = [Fake.req0].
Proof.
  refine (proj2 (podRequests_of_runner (Fake.run "" "" "" []) Fake.runnerPod _ _)).
  - apply map_subseteq_spec. intros k v Hk. exact Hk.
  - reflexivity.
Defined.

End RouterFacts.

Section ContainerFacts.

Lemma occurrences_app (c : Ascii.ascii) (s t : string) :
  occurrences c (s ++ t) = (occurrences c s + occurrences c t)%nat.
Proof.
  induction s as [| a s IH]; [reflexivity |].
  simpl. rewrite IH. lia.
Qed.

(** X3.  The container of NewS3Container runs the given command followed by
    one download line, and the uri goes into that line as it is, between two
    single quotes: the line holds two quotes more than the uri does.  A uri
    without a single quote is therefore quoted as a whole, and a single quote
    in the uri is not escaped. *)
Theorem NewS3Container_command (uri image : string) (volumeMount : VolumeMount)
    (command : list string) (env : list EnvVar) :
  let c := NewS3Container uri image volumeMount command env in
  firstn (length command) (cCommand c) = command
  /\ skipn (length command) (cCommand c) = [downloadLine uri]
  /\ occurrences quote (downloadLine uri) = (2 + occurrences quote uri)%nat.
Proof.
  cbn. split; [| split].
  - now rewrite take_app_length.
  - now rewrite drop_app_length.
  - unfold downloadLine. rewrite !occurrences_app.
    assert (Hopen : occurrences quote "curl -X GET -L '" = 1%nat) by reflexivity.
    assert (Hclose : occurrences quote "' > /test/archive.tar ; ls -l /test" = 1%nat)
      by reflexivity.
    rewrite Hopen, Hclose. lia.
Qed.

End ContainerFacts.

Section PLZFacts.

Context {C D : Type} `{!CloudAPI C D}.

(** X4.  RegisterPLZ and DeRegisterPLZ send nothing when the request cannot
    be built, and return the error of the building as it is.  Once the
    request is sent, RegisterPLZ succeeds exactly when the sending does, and
    an error it returns is a new error made of the texts, never a not-found
    error; DeRegisterPLZ returns what the sending returned. *)
Theorem RegisterPLZ_errors (data : D) (name : string) (c : C) :
  let post := NewRequest "POST" ("http://" ++ mockCloud ++ "/v1/load-zones")
                (Some data) in
  let delete := NewRequest "DELETE"
                  ("http://" ++ mockCloud ++ "/v1/load-zones/" ++ name) None in
  (forall e, post = inl e -> RegisterPLZ data c = (Some e, c))
  /\ (forall e, delete = inl e -> DeRegisterPLZ name c = (Some e, c))
  /\ (forall req,
      post = inr req ->
      snd (RegisterPLZ data c) = snd (Do req c)
      /\ (fst (RegisterPLZ data c) = None <-> fst (fst (Do req c)) = None)
      /\ (forall e, fst (RegisterPLZ data c) = Some e -> IsNotFound e = false))
  /\ (forall req,
      delete = inr req ->
      DeRegisterPLZ name c = (fst (fst (Do req c)), snd (Do req c))).
Proof.
  intros post delete. unfold RegisterPLZ, DeRegisterPLZ. fold post delete.
  split; [| split; [| split]].
  - intros e He. now rewrite He.
  - intros e He. now rewrite He.
  - intros req Hreq. rewrite Hreq.
    destruct (Do req c) as [[[e |] message] c']; cbn.
    + split; [reflexivity |]. split; [split; discriminate |].
      intros e' He'. injection He' as <-. reflexivity.
    + split; [reflexivity |]. split; [split; reflexivity |].
      intros e' He'. discriminate He'.
  - intros req Hreq. rewrite Hreq.
    destruct (Do req c) as [[e message] c']; reflexivity.
Qed.

End PLZFacts.

Section PLZRuns.

Import Fake.

Lemma RegisterPLZ_errors_witness :
  RegisterPLZ "zone-a" ([] : sentRequests)
    = (None, [{| reqMethod := "POST";
                 reqURL := "http://" ++ mockCloud ++ "/v1/load-zones";
                 reqData := Some "zone-a" |}])
  /\ fst (DeRegisterPLZ "zone-a" ([] : sentRequests)) = Some (ErrNotFound "load zone").
Proof.
  destruct (RegisterPLZ_errors "zone-a" "zone-a" ([] : sentRequests))
    as (_ & _ & Hpost & Hdelete).
  split.
  - destruct (Hpost _ eq_refl) as (Hsent & Hok & _).
    apply injective_projections; [apply Hok; reflexivity | exact Hsent].
  - now rewrite (Hdelete _ eq_refl).
Defined.

End PLZRuns.

Section PollerMore.

Context {W : Type} `{!Cluster W}.

Lemma isJobRunning_calls (log : Logger) (service : Service) (r : K6Reconciler W) :
  Calls (snd (isJobRunning log service r))
  = (Calls r ++ [CallHttpGet (statusURL service)])%list.
Proof.
  unfold isJobRunning, bind. rewrite call_fst.
  destruct (fst (httpGet (statusURL service) (Client r))) as [e | resp];
    [reflexivity |].
  destruct (400 <=? StatusCode resp); [reflexivity |].
  destruct (Body resp) as [e | data]; [reflexivity |].
  destruct (jsonUnmarshalStatus data); reflexivity.
Qed.

Lemma StoppedJobs_range_calls (log : Logger) (items : list Service) :
  forall hostnames count (r : K6Reconciler W),
    Calls (snd (StoppedJobs_range log items hostnames count r))
    = (Calls r ++ map (fun service => CallHttpGet (statusURL service)) items)%list.
Proof.
  induction items as [| service rest IH]; intros hostnames count r.
  - cbn. now rewrite app_nil_r.
  - cbn [StoppedJobs_range map]. unfold bind at 1.
    pose proof (isJobRunning_calls log service r) as Hone.
    destruct (isJobRunning log service r) as [running r1]. cbn [snd] in Hone.
    rewrite IH, Hone. now rewrite <- app_assoc.
Qed.

(** X5.  When the listing succeeds, [StoppedJobs] probes every listed
    endpoint once, in the order of the listing, whatever the earlier probes
    answered, and makes no other call: it neither deletes nor writes. *)
Theorem StoppedJobs_probes_every_endpoint (ctx : Context) (log : Logger) (k6 : K6)
    (r : K6Reconciler W) (items : list Service) (w1 : W) :
  ListServices (runnerOpts k6) (Client r) = (inr items, w1) ->
  Calls (snd (StoppedJobs ctx log k6 r))
  = (Calls r ++ CallListServices (runnerOpts k6)
       :: map (fun service => CallHttpGet (statusURL service)) items)%list.
Proof.
  intros Hlist. unfold StoppedJobs. unfold bind at 1.
  unfold Info at 1, emit at 1. unfold bind at 1. rewrite call_fst.
  cbn [Client logged]. rewrite Hlist. cbn [fst snd]. unfold bind at 1.
  set (r1 := called _ _ _).
  pose proof (StoppedJobs_range_calls (withTestRunId log k6) items [] 0 r1) as Hcalls.
  destruct (StoppedJobs_range (withTestRunId log k6) items [] 0 r1)
    as [[hostnames count] r2].
  cbn [snd] in Hcalls. unfold bind, Info, emit.
  destruct (0 <? count); cbn [snd ret Calls logged]; rewrite Hcalls;
    unfold r1; cbn [Calls called logged]; now rewrite <- app_assoc.
Qed.

Lemma decodedStatus_verdict (reply : error + Response) (status : k6Status) :
  decodedStatus reply = Some status -> verdict reply = Stopped status.
Proof.
  destruct reply as [e | resp]; cbn; [discriminate |].
  destruct (400 <=? StatusCode resp); [discriminate |].
  destruct (Body resp) as [e | data]; [discriminate |].
  destruct (jsonUnmarshalStatus data) as [e | st]; [discriminate |].
  intros Hst. now injection Hst as ->.
Qed.

(** X6.  When every probe of a poll is answered with a payload that is read
    and decoded, [StoppedJobs] returns true exactly when no payload has its
    Stopped flag set: an endpoint that reports it has stopped is the one that
    keeps the result false. *)
Theorem StoppedJobs_decoded_flags (ctx : Context) (log : Logger) (k6 : K6)
    (r : K6Reconciler W) (items : list Service) (w1 : W)
    (statuses : list k6Status) :
  ListServices (runnerOpts k6) (Client r) = (inr items, w1) ->
  Z.of_nat (length items) < 2 ^ 31 ->
  map decodedStatus (probeReplies items w1) = map Some statuses ->
  fst (StoppedJobs ctx log k6 r) = negb (existsb Stopped statuses).
Proof.
  intros Hlist Hlen Hdecoded.
  rewrite (StoppedJobs_listed ctx log k6 r items w1 Hlist Hlen). f_equal.
  revert statuses Hdecoded. generalize (probeReplies items w1).
  intros replies. induction replies as [| reply replies IH];
    intros [| status statuses] Hdecoded; try discriminate Hdecoded; [reflexivity |].
  cbn [map] in Hdecoded. injection Hdecoded as Hhead Htail.
  cbn [existsb]. rewrite (decodedStatus_verdict reply status Hhead).
  now rewrite (IH statuses Htail).
Qed.

Lemma KillJobs_range_log (log : Logger) (items : list Job) :
  forall r : K6Reconciler W,
    Logged (snd (KillJobs_range log items r))
    = (Logged r ++ concat (map (sweepLine log) (sweepReplies items (Client r))))%list.
Proof.
  induction items as [| job rest IH]; intros r.
  - cbn. now rewrite app_nil_r.
  - cbn [KillJobs_range sweepReplies]. unfold bind at 1. rewrite call_fst.
    destruct (DeleteJob job DeletePropagationBackground (Client r)) as [err w1].
    cbn [fst snd map concat]. unfold bind at 1.
    destruct err as [e |]; cbn; rewrite IH; cbn [Logged Client called logged].
    + now rewrite <- app_assoc.
    + reflexivity.
Qed.

(** X7.  When the listing succeeds, what [KillJobs] writes to the log is its
    opening line and then one error line for each deletion that was refused,
    in the order of the sweep and with the name of the job; a deletion that
    went through leaves no line. *)
Theorem KillJobs_logs_each_refusal (ctx : Context) (log : Logger) (k6 : K6)
    (r : K6Reconciler W) (items : list Job) (w1 : W) :
  ListJobs (runnerOpts k6) (Client r) = (inr items, w1) ->
  let lg := withTestRunId log k6 in
  Logged (snd (KillJobs ctx log k6 r))
  = (Logged r
     ++ infoLine lg "Checking if all runner pods are finished" []
        :: concat (map (sweepLine lg) (sweepReplies items w1)))%list.
Proof.
  intros Hlist lg. rewrite KillJobs_run. rewrite Hlist. cbn [fst snd].
  rewrite KillJobs_range_log. cbn [Logged Client called logged].
  now rewrite <- app_assoc.
Qed.

End PollerMore.

Section PollerMoreRuns.

Import Fake.

Lemma StoppedJobs_probes_every_endpoint_witness :
  Calls (snd (StoppedJobs ctx0 [] startedRun (reconciler failing500)))
  = [CallListServices (runnerOpts startedRun);
     CallHttpGet (urlOf "w1"); CallHttpGet (urlOf "w2")].
Proof.
  refine (StoppedJobs_probes_every_endpoint ctx0 [] startedRun
            (reconciler failing500) [snd (worker "w1"); snd (worker "w2")]
            failing500 _).
  vm_compute; reflexivity.
Defined.

Lemma StoppedJobs_decoded_flags_witness :
  fst (StoppedJobs ctx0 [] startedRun (reconciler bothRunning)) = true.
Proof.
  refine (StoppedJobs_decoded_flags ctx0 [] startedRun (reconciler bothRunning)
            [snd (worker "w1"); snd (worker "w2")] bothRunning
            [{| Running := true; Stopped := false; Tainted := false |};
             {| Running := true; Stopped := false; Tainted := false |}] _ _ _);
    vm_compute; reflexivity.
Defined.

Lemma KillJobs_logs_each_refusal_witness :
  Logged (snd (KillJobs ctx0 [] abortedRun (reconciler sweepRefused)))
  = [infoLine [("testRunId", "tr-1")] "Checking if all runner pods are finished" [];
     errorLine [("testRunId", "tr-1")] (Some (ErrOther "delete refused"))
       "Failed to delete runner job %s" [AStr "j2"]].
Proof.
  refine (KillJobs_logs_each_refusal ctx0 [] abortedRun (reconciler sweepRefused)
            [snd (workerJob "j1"); snd (workerJob "j2")] sweepRefused _).
  vm_compute; reflexivity.
Defined.

End PollerMoreRuns.

Section ControllerMore.

Context {W : Type} `{!Cluster W} `{!Collaborators W}.

(** X8.  When the re-fetch of [UpdateStatus] fails with an error other than
    not-found, the answer is "no update happened" together with that error;
    the object of the caller is left as it was and nothing is written. *)
Theorem UpdateStatus_fetch_error (ctx : Context) (k6 : K6) (log : Logger)
    (r : K6Reconciler W) (e : error) (w1 : W) :
  let nn := {| nnNamespace := Namespace k6; nnName := Name k6 |} in
  Get nn (Client r) = (inl e, w1) ->
  IsNotFound e = false ->
  UpdateStatus ctx k6 log r
  = ((false, Some e, k6),
     logged (errorLine log (Some e) "Could not fetch request" [])
       (called (CallGet nn) w1 r)).
Proof.
  intros nn Hget Hnf. rewrite UpdateStatus_run. fold nn. rewrite Hget.
  cbn [fst snd]. now rewrite Hnf.
Qed.

(** X9.  Whatever the cluster answers, [UpdateStatus] makes one fetch and
    after it at most one call, a status patch; it keeps the cloud client of
    the reconciler; and when it answers "update happened" it returns no error
    and the patch was issued. *)
Theorem UpdateStatus_one_fetch_one_patch (ctx : Context) (k6 : K6) (log : Logger)
    (r : K6Reconciler W) :
  let nn := {| nnNamespace := Namespace k6; nnName := Name k6 |} in
  let out := UpdateStatus ctx k6 log r in
  exists rest,
    Calls (snd out) = (Calls r ++ CallGet nn :: rest)%list
    /\ (rest = [] \/ exists obj base, rest = [CallStatusPatch obj base])
    /\ K6CloudClient (snd out) = K6CloudClient r
    /\ (fst (fst (fst out)) = true -> snd (fst (fst out)) = None /\ rest <> []).
Proof.
  intros nn out. subst out. rewrite UpdateStatus_run. fold nn.
  destruct (fst (Get nn (Client r))) as [err | fetched].
  - exists []. destruct (IsNotFound err); cbn;
      (split; [reflexivity |]); (split; [now left |]);
      (split; [reflexivity |]); intros Hf; discriminate Hf.
  - cbv zeta.
    destruct (fst (SetIfNewer (Status fetched) (Status k6))).
    + set (merged := setStatus _ fetched).
      exists [CallStatusPatch merged fetched].
      destruct (fst (StatusPatch merged fetched _)) as [err | k6']; cbn;
        rewrite <- app_assoc;
        (split; [reflexivity |]); (split; [right; eauto |]);
        (split; [reflexivity |]); intros Hf;
        [discriminate Hf | split; [reflexivity | discriminate]].
    + exists []. cbn. split; [reflexivity |]. split; [now left |].
      split; [reflexivity |]. intros Hf. discriminate Hf.
Qed.

(** X10.  With a test run identifier and a remote state that was retrieved,
    [ShouldAbort] answers what [Aborted] says of that state; the query, made
    with the cloud client the reconciler holds, is its only call. *)
Theorem ShouldAbort_retrieved (ctx : Context) (k6 : K6) (log : Logger)
    (r : K6Reconciler W) (status : Z) (w1 : W) :
  let id := TestRunID (Status k6) in
  id <> "" ->
  GetTestRunState (K6CloudClient r) id (Client r) = (inr status, w1) ->
  ShouldAbort ctx k6 log r
  = (Aborted status,
     logged (infoLine log "Received test run status %v" [AInt status])
       (called (CallGetTestRunState id) w1 r)).
Proof.
  intros id Hid Hq. rewrite ShouldAbort_run. fold id.
  destruct ((String.length id =? 0)%nat) eqn:Elen.
  - apply length_zero_empty in Elen. contradiction.
  - rewrite Hq. reflexivity.
Qed.

(** X11.  When the fetch of the run fails, [Reconcile] makes no other call
    and touches neither the stage nor the cloud client.  A run that is not
    found is a success with no requeue; any other error is returned with an
    immediate requeue. *)
Theorem Reconcile_fetch_failure (ctx : Context) (req : Request)
    (r : K6Reconciler W) (e : error) (w1 : W) :
  Get (reqNamespacedName req) (Client r) = (inl e, w1) ->
  let out := Reconcile ctx req r in
  fst out = (if IsNotFound e then (Result_zero, None)
             else ({| Requeue := true; RequeueAfter := 0 |}, Some e))
  /\ Calls (snd out) = (Calls r ++ [CallGet (reqNamespacedName req)])%list
  /\ Client (snd out) = w1
  /\ K6CloudClient (snd out) = K6CloudClient r.
Proof.
  intros Hget out.
  assert (Hrun : out
                 = if IsNotFound e then
                     ((Result_zero, None),
                      logged (infoLine (requestLogger (Log r) ctx req)
                                "Request deleted. Nothing to reconcile." [])
                        (called (CallGet (reqNamespacedName req)) w1 r))
                   else
                     (({| Requeue := true; RequeueAfter := 0 |}, Some e),
                      logged (errorLine (requestLogger (Log r) ctx req) (Some e)
                                "Could not fetch request" [])
                        (called (CallGet (reqNamespacedName req)) w1 r))).
  { unfold out, Reconcile, body. unfold bind at 1 2. unfold getLog.
    unfold bind at 1. rewrite (call_run _ _ _ _ _ Hget).
    destruct (IsNotFound e); reflexivity. }
  rewrite Hrun. destruct (IsNotFound e); repeat split.
Qed.

(** X12.  A run that reaches the switch with a stage that is none of "",
    "initialization", "initialized", "created", "started", "stopped",
    "error" and "finished" ends the reconciliation with the error "invalid
    status" and no requeue; the error is logged and no call is made for it. *)
Theorem Reconcile_invalid_stage (ctx : Context) (req : Request)
    (r : K6Reconciler W) (k6 : K6) (rs : K6Reconciler W) :
  Reconcile_enter ctx req r = Some (k6, rs) ->
  ~ In (Stage (Status k6))
       [""; "initialization"; "initialized"; "created"; "started"; "stopped";
        "error"; "finished"] ->
  Reconcile ctx req r
  = ((Result_zero, Some (ErrOther "invalid status")),
     logged (errorLine (requestLogger (Log r) ctx req)
               (Some (ErrOther "invalid status"))
               "Invalid status for the k6 resource." []) rs).
Proof.
  intros Henter Hstage.
  rewrite (Reconcile_switch_reached ctx req r k6 rs Henter).
  unfold Reconcile_switch.
  assert (Hne : forall s,
             In s [""; "initialization"; "initialized"; "created"; "started";
                   "stopped"; "error"; "finished"] ->
             String.eqb (Stage (Status k6)) s = false).
  { intros s Hs. apply String.eqb_neq. intros Heq. apply Hstage.
    rewrite Heq. exact Hs. }
  rewrite !Hne by (cbn; tauto). reflexivity.
Qed.

(** X13.  A PLZ run reconciled by a reconciler that holds no cloud client,
    when the lookup of the credential fails: the reconciliation returns that
    error with no requeue, whether or not a token came with it; no client is
    built, the error is logged twice (by [createClient] and by [Reconcile]),
    and the only calls are the fetch and the lookup. *)
Theorem Reconcile_token_error (ctx : Context) (req : Request)
    (r : K6Reconciler W) (k6 : K6) (w1 w2 : W)
    (token : string) (tokenReady : bool) (e : error) :
  let opts := {| LabelSelector := ∅; optNamespace := Namespace k6 |} in
  let log := requestLogger (Log r) ctx req in
  K6CloudClient r = None ->
  Get (reqNamespacedName req) (Client r) = (inr k6, w1) ->
  IsTrue k6 CloudPLZTestRun = true ->
  loadToken (Token (Spec k6)) opts w1 = ((token, tokenReady, Some e), w2) ->
  Reconcile ctx req r
  = ((Result_zero, Some e),
     logged (errorLine log (Some e) "A problem while getting token." [])
       (logged (errorLine log (Some e) "A problem while getting token." [])
          (called (CallLoadToken (Token (Spec k6)) opts) w2
             (called (CallGet (reqNamespacedName req)) w1 r)))).
Proof.
  intros opts log Hnone Hget Hplz Htok.
  unfold Reconcile, body. unfold bind at 1 2. unfold getLog.
  unfold bind at 1. rewrite (call_run _ _ _ _ _ Hget).
  unfold bindF at 1. unfold bind at 1. unfold Reconcile_bootstrap at 1.
  rewrite Hplz. unfold bind at 1. rewrite createClient_run. fold opts.
  cbn [Client called K6CloudClient]. rewrite Hnone, Htok. reflexivity.
Qed.

(** X14.  A PLZ run reconciled by a reconciler that holds no cloud client,
    when the credential is there: the client is built from the token and
    from the value of K6_CLOUD_HOST in the environment of the runner, and the
    same reconciliation goes on to the switch on the stage with a reconciler
    that holds this client. *)
Theorem Reconcile_bootstrap_found (ctx : Context) (req : Request)
    (r : K6Reconciler W) (k6 : K6) (w1 w2 : W) (token : string) :
  let opts := {| LabelSelector := ∅; optNamespace := Namespace k6 |} in
  let log := requestLogger (Log r) ctx req in
  let c := NewClient log token (getEnvVar (RunnerEnv (Spec k6)) "K6_CLOUD_HOST") in
  let rs := logged (infoLine log "Reconcile(); stage = %s" [AStr (Stage (Status k6))])
              (snd (setCloudClient c
                      (called (CallLoadToken (Token (Spec k6)) opts) w2
                         (called (CallGet (reqNamespacedName req)) w1 r)))) in
  K6CloudClient r = None ->
  Get (reqNamespacedName req) (Client r) = (inr k6, w1) ->
  IsTrue k6 CloudPLZTestRun = true ->
  loadToken (Token (Spec k6)) opts w1 = ((token, true, None), w2) ->
  K6CloudClient rs = Some c
  /\ Reconcile ctx req r = Reconcile_leave log (Reconcile_switch ctx log k6 rs).
Proof.
  intros opts log c rs Hnone Hget Hplz Htok. split; [reflexivity |].
  apply Reconcile_switch_reached.
  unfold Reconcile_enter. rewrite (call_run _ _ _ _ _ Hget).
  unfold Reconcile_bootstrap. rewrite Hplz. unfold bind at 1.
  rewrite createClient_run. fold opts.
  cbn [Client called K6CloudClient]. rewrite Hnone, Htok. reflexivity.
Qed.

End ControllerMore.

Section StageFacts.

Context {W : Type} `{!Cluster W} `{!Collaborators W}.

(** X15.  A run in the stage "started" that is a finalized cloud run, or
    that is aborted, is left alone: the reconciliation returns no requeue and
    no error, the workers are not polled and the reconciler is as it was when
    the switch was reached. *)
Theorem Reconcile_started_guards (ctx : Context) (req : Request)
    (r : K6Reconciler W) (k6 : K6) (rs : K6Reconciler W) :
  Reconcile_enter ctx req r = Some (k6, rs) ->
  Stage (Status k6) = "started" ->
  IsTrue k6 CloudTestRun && IsTrue k6 CloudTestRunFinalized = true
  \/ IsTrue k6 CloudTestRunAborted = true ->
  Reconcile ctx req r = ((Result_zero, None), rs).
Proof.
  intros Henter Hstage Hguard.
  rewrite (Reconcile_switch_reached ctx req r k6 rs Henter).
  unfold Reconcile_switch. rewrite Hstage. cbn [String.eqb Ascii.eqb Bool.eqb].
  unfold Reconcile_started.
  destruct (IsTrue k6 CloudTestRun && IsTrue k6 CloudTestRunFinalized);
    [reflexivity |].
  destruct Hguard as [Hf | Ha]; [discriminate Hf |]. rewrite Ha. reflexivity.
Qed.

(** X16.  A PLZ run in the stage "started" whose workers have not all
    finished and for which the cloud reports an abort: the reconciliation
    returns what [StopJobs] returns, and does not update the status itself. *)
Theorem Reconcile_started_abort (ctx : Context) (req : Request)
    (r : K6Reconciler W) (k6 : K6) (rs : K6Reconciler W) :
  Reconcile_enter ctx req r = Some (k6, rs) ->
  Stage (Status k6) = "started" ->
  IsTrue k6 CloudTestRun && IsTrue k6 CloudTestRunFinalized = false ->
  IsTrue k6 CloudTestRunAborted = false ->
  let log := requestLogger (Log r) ctx req in
  let poll := FinishJobs ctx log k6 rs in
  let check := ShouldAbort ctx k6 log (snd poll) in
  fst poll = false ->
  IsTrue k6 CloudPLZTestRun && IsFalse k6 CloudTestRunAborted = true ->
  fst check = true ->
  Reconcile ctx req r
  = StopJobs ctx log k6
      (logged (infoLine log
                 "Received an abort signal from the k6 Cloud: stopping the test." [])
         (snd check)).
Proof.
  intros Henter Hstage Hfluke Haborted log poll check Hpoll Hplz Hcheck.
  rewrite (Reconcile_switch_reached ctx req r k6 rs Henter). fold log.
  assert (Hsw : Reconcile_switch ctx log k6 = Reconcile_started ctx log k6).
  { unfold Reconcile_switch. rewrite Hstage. reflexivity. }
  rewrite Hsw, (Reconcile_started_run ctx log k6 rs Hfluke Haborted).
  fold poll. rewrite Hpoll, Hplz. cbv zeta. fold check. rewrite Hcheck.
  cbn [Reconcile_leave]. now destruct (StopJobs ctx log k6 _).
Qed.

(** X17.  The forced-abort statement of the stage "stopped" deletes nothing
    before the workers confirm they stopped.  For a run that is not a forced
    PLZ abort it does nothing at all, the workers are not even polled; for a
    forced abort whose workers are not all stopped it stops after the poll,
    and the stage goes on with the finalization and the change to "finished"
    all the same. *)
Theorem Reconcile_stopped_abort_guarded (ctx : Context) (log : Logger) (k6 : K6)
    (r : K6Reconciler W) :
  let forced := IsTrue k6 CloudPLZTestRun && IsTrue k6 CloudTestRunAborted in
  let poll := StoppedJobs ctx log k6 r in
  (forced = false -> Reconcile_stopped_abort ctx log k6 r = (Next k6, r))
  /\ (forced = true -> fst poll = false ->
      Reconcile_stopped_abort ctx log k6 r = (Next k6, snd poll)
      /\ Reconcile_stopped ctx log k6 r
         = (let? k6 := Reconcile_stopped_finalize ctx log k6 in
            Reconcile_stopped_finish ctx log k6) (snd poll)).
Proof.
  intros forced poll. split.
  - intros Hforced. unfold Reconcile_stopped_abort. fold forced.
    now rewrite Hforced.
  - intros Hforced Hpoll.
    assert (Habort : Reconcile_stopped_abort ctx log k6 r = (Next k6, snd poll)).
    { unfold Reconcile_stopped_abort. fold forced. rewrite Hforced.
      unfold bind. fold poll. destruct poll as [stopped r1].
      cbn in Hpoll. subst stopped. reflexivity. }
    split; [exact Habort |].
    unfold Reconcile_stopped. now rewrite (bindF_next _ _ _ _ _ Habort).
Qed.

(** X18.  The stage "": the defaults are proposed first; when that update
    fails its error is returned and the stage is not proposed.  Otherwise the
    stage "initialization" is proposed on the object as the first update left
    it, and [InitializeJobs] runs only when this second update reports that
    it happened, on the object it returned; when it reports no change the
    reconciliation returns no requeue and no error. *)
Theorem Reconcile_unset_gate (ctx : Context) (log : Logger) (k6 : K6)
    (r : K6Reconciler W) :
  let u1 := UpdateStatus ctx (Initialize k6) log
              (logged (infoLine log "Initialize test" []) r) in
  let u2 := UpdateStatus ctx (setStage "initialization" (snd (fst u1))) log
              (logged (infoLine log "Changing stage of K6 status to initialization" [])
                 (snd u1)) in
  (forall e, snd (fst (fst u1)) = Some e ->
      Reconcile_unset ctx log k6 r = (Return (Result_zero, Some e), snd u1))
  /\ (snd (fst (fst u1)) = None ->
      (forall e, snd (fst (fst u2)) = Some e ->
          Reconcile_unset ctx log k6 r = (Return (Result_zero, Some e), snd u2))
      /\ (fst (fst u2) = (false, None) ->
          Reconcile_unset ctx log k6 r = (Return (Result_zero, None), snd u2))
      /\ (fst (fst u2) = (true, None) ->
          Reconcile_unset ctx log k6 r
          = (Return (fst (InitializeJobs ctx log (snd (fst u2)) (snd u2))),
             snd (InitializeJobs ctx log (snd (fst u2)) (snd u2))))).
Proof.
  intros u1 u2. subst u1 u2. unfold Reconcile_unset, bind, Info, emit.
  destruct (UpdateStatus ctx (Initialize k6) log _) as [[[uh1 err1] k6a] r1].
  cbn [fst snd]. split.
  - intros e He. subst err1. reflexivity.
  - intros Hnone. subst err1. unfold bind, Info, emit.
    destruct (UpdateStatus ctx (setStage "initialization" k6a) log _)
      as [[[uh2 err2] k6b] r2]. cbn [fst snd].
    split; [| split].
    + intros e He. subst err2. now destruct uh2.
    + intros Hu. injection Hu as -> ->. reflexivity.
    + intros Hu. injection Hu as -> ->.
      now destruct (InitializeJobs ctx log k6b r2).
Qed.


End StageFacts.

Section StageRuns.

Import Fake.

Ltac run := first [reflexivity | vm_compute; reflexivity].

Lemma UpdateStatus_fetch_error_witness :
  fst (UpdateStatus ctx0 startedRun [] (reconciler fetchRefused))
  = (false, Some (ErrOther "etcd timeout"), startedRun).
Proof.
  pose proof (UpdateStatus_fetch_error ctx0 startedRun [] (reconciler fetchRefused)
                (ErrOther "etcd timeout") fetchRefused) as Hrun.
  cbv zeta in Hrun. rewrite Hrun; run.
Defined.

Lemma UpdateStatus_one_fetch_one_patch_witness :
  fst (fst (UpdateStatus ctx0 startedRun [] (reconciler persistedCreated)))
  = (true, None).
Proof.
  destruct (UpdateStatus_one_fetch_one_patch ctx0 startedRun []
              (reconciler persistedCreated)) as (rest & _ & _ & _ & Hhappened).
  destruct Hhappened as (Hnone & _); [run |].
  apply injective_projections; [run | exact Hnone].
Defined.

Lemma ShouldAbort_retrieved_witness :
  fst (ShouldAbort ctx0 (plzRun "tr-1") [] (reconciler (cloudSays (inr 5)))) = true.
Proof.
  pose proof (ShouldAbort_retrieved ctx0 (plzRun "tr-1") []
                (reconciler (cloudSays (inr 5))) 5 (cloudSays (inr 5))) as Hrun.
  cbv zeta in Hrun. rewrite Hrun; [run | | run].
  intros Hid. discriminate Hid.
Defined.

Lemma Reconcile_fetch_failure_witness :
  fst (Reconcile ctx0 req0 (reconciler runDeleted)) = (Result_zero, None)
  /\ fst (Reconcile ctx0 req0 (reconciler fetchRefused))
     = ({| Requeue := true; RequeueAfter := 0 |}, Some (ErrOther "etcd timeout")).
Proof.
  split.
  - destruct (Reconcile_fetch_failure ctx0 req0 (reconciler runDeleted)
                (ErrNotFound "load") runDeleted) as (Hres & _); [run |].
    exact Hres.
  - destruct (Reconcile_fetch_failure ctx0 req0 (reconciler fetchRefused)
                (ErrOther "etcd timeout") fetchRefused) as (Hres & _); [run |].
    exact Hres.
Defined.

Lemma Reconcile_invalid_stage_witness :
  fst (Reconcile ctx0 req0 (reconciler (clusterWith bogusRun [] [] [])))
  = (Result_zero, Some (ErrOther "invalid status")).
Proof.
  pose proof (Reconcile_invalid_stage ctx0 req0
                (reconciler (clusterWith bogusRun [] [] [])) bogusRun
                (atSwitch (reconciler (clusterWith bogusRun [] [] [])))) as Hrun.
  rewrite Hrun; [run | run |].
  cbn. intros Hin. repeat (destruct Hin as [Hin | Hin]; [discriminate Hin |]).
  exact Hin.
Defined.

Lemma Reconcile_token_error_witness :
  fst (@Reconcile Cluster_state cluster collaboratorsTokenError ctx0 req0
         (reconciler credentialMissing))
  = (Result_zero, Some (ErrOther "forbidden")).
Proof.
  pose proof (@Reconcile_token_error Cluster_state cluster collaboratorsTokenError
                ctx0 req0 (reconciler credentialMissing) (plzRun "tr-1")
                credentialMissing credentialMissing "" true (ErrOther "forbidden"))
    as Hrun.
  cbv zeta in Hrun. rewrite Hrun; run.
Defined.

Lemma Reconcile_bootstrap_found_witness :
  fst (Reconcile ctx0 req0 (reconciler (cloudSays (inr 2))))
    = ({| Requeue := false; RequeueAfter := Second * 15 |}, None)
  /\ K6CloudClient (snd (Reconcile ctx0 req0 (reconciler (cloudSays (inr 2)))))
     = Some aClient.
Proof.
  destruct (Reconcile_bootstrap_found ctx0 req0 (reconciler (cloudSays (inr 2)))
              (plzRun "tr-1") (cloudSays (inr 2)) (cloudSays (inr 2)) "tok")
    as (_ & Hrun); [run | run | run | run |].
  rewrite Hrun. vm_compute. split; reflexivity.
Defined.

Lemma Reconcile_started_guards_witness :
  Reconcile ctx0 req0 (reconciler (clusterWith finalizedStarted [] [] []))
  = ((Result_zero, None), atSwitch (reconciler (clusterWith finalizedStarted [] [] []))).
Proof.
  apply (Reconcile_started_guards ctx0 req0
           (reconciler (clusterWith finalizedStarted [] [] [])) finalizedStarted
           (atSwitch (reconciler (clusterWith finalizedStarted [] [] [])))).
  - run.
  - run.
  - left. run.
Defined.

Lemma Reconcile_started_abort_witness :
  fst (Reconcile ctx0 req0 (reconciler (cloudSays (inr 5)))) = (Result_zero, None).
Proof.
  pose proof (Reconcile_started_abort ctx0 req0 (reconciler (cloudSays (inr 5)))
                (plzRun "tr-1") (atSwitch (reconciler (cloudSays (inr 5))))) as Hrun.
  cbv zeta in Hrun. rewrite Hrun; run.
Defined.

Lemma Reconcile_stopped_abort_guarded_witness :
  Reconcile_stopped_abort ctx0 [] plainStopped (reconciler nothingToFinalize)
    = (Next plainStopped, reconciler nothingToFinalize)
  /\ jobs (Client (snd (Reconcile_stopped_abort ctx0 [] abortedRun
                          (reconciler abortWaiting))))
     = [workerJob "j1"].
Proof.
  split.
  - destruct (Reconcile_stopped_abort_guarded ctx0 [] plainStopped
                (reconciler nothingToFinalize)) as (Hplain & _).
    apply Hplain. run.
  - destruct (Reconcile_stopped_abort_guarded ctx0 [] abortedRun
                (reconciler abortWaiting)) as (_ & Hwait).
    destruct Hwait as (Hblock & _); [run | run |].
    rewrite Hblock. run.
Defined.

Lemma Reconcile_unset_gate_witness :
  fst (Reconcile_unset ctx0 [] newRun (reconciler (clusterWith newRun [] [] [])))
  = Return (Result_zero, None).
Proof.
  destruct (Reconcile_unset_gate ctx0 [] newRun
              (reconciler (clusterWith newRun [] [] []))) as (_ & Hsecond).
  destruct Hsecond as (_ & _ & Hjobs); [run |].
  rewrite Hjobs; run.
Defined.


End StageRuns.

Section DeletionFacts.

Context {W : Type} `{!Cluster W} `{!Collaborators W}.

Lemma quiet_ret {A} (a : A) : deletesNoRun (W:=W) (ret a).
Proof. intros r. reflexivity. Qed.

Lemma quiet_bind {A B} (m : M W A) (k : A -> M W B) :
  deletesNoRun m -> (forall a, deletesNoRun (k a)) -> deletesNoRun (bind m k).
Proof.
  intros Hm Hk r. unfold bind. specialize (Hm r).
  destruct (m r) as [a r1]. cbn [snd] in Hm. rewrite <- Hm. apply Hk.
Qed.

Lemma quiet_bindF {R A B} (m : M W (Flow R A)) (k : A -> M W (Flow R B)) :
  deletesNoRun m -> (forall a, deletesNoRun (k a)) -> deletesNoRun (bindF m k).
Proof.
  intros Hm Hk. unfold bindF. apply quiet_bind; [exact Hm |].
  intros [a | res]; [apply Hk | apply quiet_ret].
Qed.

Lemma quiet_call {A} (c : Call) (op : W -> A * W) :
  runDeletions [c] = [] -> deletesNoRun (call c op).
Proof.
  intros Hc r. unfold call. destruct (op (Client r)) as [a w].
  cbn [snd called Calls]. unfold runDeletions in *.
  rewrite List.filter_app, Hc. apply app_nil_r.
Qed.

Lemma quiet_emit (e : LogEntry) : deletesNoRun (W:=W) (emit e).
Proof. intros r. reflexivity. Qed.

Lemma quiet_getCloudClient : deletesNoRun (W:=W) getCloudClient.
Proof. intros r. reflexivity. Qed.

Lemma quiet_setCloudClient (c : CloudClient) : deletesNoRun (W:=W) (setCloudClient c).
Proof. intros r. reflexivity. Qed.

Lemma quiet_getLog : deletesNoRun (W:=W) getLog.
Proof. intros r. reflexivity. Qed.

Ltac quiet_step :=
  match goal with
  | |- deletesNoRun (bind _ _) => apply quiet_bind; [| intros ?]
  | |- deletesNoRun (bindF _ _) => apply quiet_bindF; [| intros ?]
  | |- deletesNoRun (ret _) => apply quiet_ret
  | |- deletesNoRun (next _) => apply quiet_ret
  | |- deletesNoRun (return_ _) => apply quiet_ret
  | |- deletesNoRun (call _ _) => apply quiet_call; reflexivity
  | |- deletesNoRun (Info _ _ _) => apply quiet_emit
  | |- deletesNoRun (Error _ _ _ _) => apply quiet_emit
  | |- deletesNoRun getCloudClient => apply quiet_getCloudClient
  | |- deletesNoRun (setCloudClient _) => apply quiet_setCloudClient
  | |- deletesNoRun getLog => apply quiet_getLog
  | |- deletesNoRun (if ?b then _ else _) => destruct b
  | |- deletesNoRun (match ?x with _ => _ end) => destruct x
  | |- deletesNoRun (let (_, _) := ?x in _) => destruct x
  end.

Ltac quiet := repeat (cbv zeta; quiet_step).

Lemma quiet_StoppedJobs_range (log : Logger) (items : list Service) :
  forall hostnames count, deletesNoRun (StoppedJobs_range log items hostnames count).
Proof.
  induction items as [| service rest IH]; intros hostnames count; cbn [StoppedJobs_range].
  - apply quiet_ret.
  - apply quiet_bind; [unfold isJobRunning; quiet |]. intros running. apply IH.
Qed.

Lemma quiet_StoppedJobs (ctx : Context) (log : Logger) (k6 : K6) :
  deletesNoRun (StoppedJobs ctx log k6).
Proof. unfold StoppedJobs. quiet. apply quiet_StoppedJobs_range. Qed.

Lemma quiet_UpdateStatus (ctx : Context) (k6 : K6) (log : Logger) :
  deletesNoRun (UpdateStatus ctx k6 log).
Proof. unfold UpdateStatus. quiet. Qed.

Lemma quiet_ShouldAbort (ctx : Context) (k6 : K6) (log : Logger) :
  deletesNoRun (ShouldAbort ctx k6 log).
Proof. unfold ShouldAbort. quiet. Qed.

Lemma quiet_createClient (ctx : Context) (k6 : K6) (log : Logger) :
  deletesNoRun (createClient ctx k6 log).
Proof. unfold createClient. quiet. Qed.

(** X20.  A reconciliation requests the deletion of a run object only for
    a run it fetched in the stage "error" or "finished" with the cleanup
    policy "post": for any other fetched run, and when the fetch fails, no
    such deletion is requested, in any stage (the helpers it calls requesting
    none). *)
Theorem Reconcile_deletes_only_terminal_post (ctx : Context) (req : Request)
    (r : K6Reconciler W) :
  helpersDeleteNoRun ->
  (forall k6, fst (Get (reqNamespacedName req) (Client r)) = inr k6 ->
              terminalPost k6 = false) ->
  runDeletions (Calls (snd (Reconcile ctx req r))) = runDeletions (Calls r).
Proof.
  intros (HInit & HVal & HSetup & HCreate & HStart & HStop & HFinish & HKill) Hrun.
  assert (Hus : forall k6 log, deletesNoRun (UpdateStatus ctx k6 log))
    by (intros; apply quiet_UpdateStatus).
  unfold Reconcile, body. unfold bind at 1 2. unfold getLog. cbn [fst snd].
  unfold bind at 1. rewrite call_fst.
  set (log := requestLogger (Log r) ctx req).
  set (r1 := called _ _ r).
  assert (Hr1 : runDeletions (Calls r1) = runDeletions (Calls r)).
  { unfold r1, runDeletions. cbn [Calls called]. rewrite List.filter_app.
    apply app_nil_r. }
  destruct (fst (Get (reqNamespacedName req) (Client r))) as [err | k6] eqn:Eget.
  - destruct (IsNotFound err); cbn; exact Hr1.
  - specialize (Hrun k6 eq_refl). rewrite <- Hr1.
    assert (Hrest : deletesNoRun (A := Flow Outcome Outcome)
              (let? _ := Reconcile_bootstrap ctx log k6 in
               let* _ := Info log "Reconcile(); stage = %s" [AStr (Stage (Status k6))] in
               let? _ := Reconcile_switch ctx log k6 in
               let* _ := Error log (Some (ErrOther "invalid status"))
                           "Invalid status for the k6 resource." [] in
               return_ (Result_zero, Some (ErrOther "invalid status")))).
    { apply quiet_bindF.
      { unfold Reconcile_bootstrap. quiet. apply quiet_createClient. }
      intros _. apply quiet_bind; [apply quiet_emit |]. intros _.
      apply quiet_bindF; [| intros _; quiet].
      unfold Reconcile_switch, terminalPost in *.
      destruct (String.eqb (Stage (Status k6)) "");
        [unfold Reconcile_unset; quiet; auto |].
      destruct (String.eqb (Stage (Status k6)) "initialization");
        [unfold Reconcile_initialization; quiet; auto |].
      destruct (String.eqb (Stage (Status k6)) "initialized"); [quiet; auto |].
      destruct (String.eqb (Stage (Status k6)) "created"); [quiet; auto |].
      destruct (String.eqb (Stage (Status k6)) "started");
        [unfold Reconcile_started; quiet; auto using quiet_ShouldAbort |].
      destruct (String.eqb (Stage (Status k6)) "stopped").
      { unfold Reconcile_stopped, Reconcile_stopped_abort,
          Reconcile_stopped_finalize, Reconcile_stopped_finish.
        quiet; auto using quiet_StoppedJobs. }
      destruct (String.eqb (Stage (Status k6)) "error"
                || String.eqb (Stage (Status k6)) "finished"); [| apply quiet_ret].
      cbn [andb] in Hrun. unfold Reconcile_terminal. rewrite Hrun. quiet. }
    specialize (Hrest r1). unfold bind in *.
    destruct ((let? _ := Reconcile_bootstrap ctx log k6 in _) r1) as [[a | res] r2];
      exact Hrest.
Qed.

End DeletionFacts.

Section DeletionRuns.

Import Fake.

Lemma quiet_deleteAll (items : list Job) : deletesNoRun (deleteAll items).
Proof.
  induction items as [| job rest IH]; cbn [deleteAll].
  - apply quiet_ret.
  - apply quiet_bind; [apply quiet_call; reflexivity |]. intros err.
    apply quiet_bind; [exact IH |]. intros ok. apply quiet_ret.
Qed.

Lemma fake_helpersDeleteNoRun : helpersDeleteNoRun (W:=Cluster_state).
Proof.
  repeat split; intros ctx log k6; try (intros r; reflexivity).
  cbn. unfold fakeKillJobs. apply quiet_bind; [apply quiet_call; reflexivity |].
  intros [err | items]; [apply quiet_ret |].
  apply quiet_bind; [apply quiet_deleteAll |]. intros ok. apply quiet_ret.
Qed.

Lemma Reconcile_deletes_only_terminal_post_witness :
  runDeletions (Calls (snd (Reconcile ctx0 req0 (reconciler (terminal "never"))))) = [].
Proof.
  apply (Reconcile_deletes_only_terminal_post ctx0 req0
           (reconciler (terminal "never")) fake_helpersDeleteNoRun).
  intros k6 Hget. vm_compute in Hget. injection Hget as <-. vm_compute. reflexivity.
Defined.

End DeletionRuns.
